(** * City Scout: the authentication provider, the login view and the
      profile view

    A shallow embedding of [src/context/AuthContext.tsx] and of the two
    page components, [Auth] (the login view) and [Profile] (the profile
    view), of [src/pages].

    The handlers of the three components are [async] functions over React
    state and the Supabase SDK.  They are embedded as finite programs
    ([Prog]) over two kinds of commands: synchronous ones (state setters,
    navigation, toasts, the console) and awaited ones (SDK calls, [fetch],
    body readers).  What an awaited call answers belongs to the backend, so
    it is an input: an oracle gives the outcome of every awaited command,
    resolved or rejected, and every theorem quantifies over it. *)

From Stdlib Require Import ZArith.
From stdpp Require Import base option list strings gmap.

(** ** JavaScript values *)

(** JSON data as the SDK hands it over ([Json] of the generated Supabase
    types).  Numbers are kept integral: the code only ever tests them for
    truthiness. *)
#[local] Unset Elimination Schemes.
Inductive Json : Type :=
| JNull
| JBool (b : bool)
| JNum (n : Z)
| JStr (s : string)
| JArr (items : list Json)
| JObj (fields : list (string * Json)).
#[local] Set Elimination Schemes.

(** [if (v)], [!v], [v && ...] and [v || ...] on a JSON value. *)
Definition truthy (v : Json) : bool :=
  match v with
  | JNull => false
  | JBool b => b
  | JNum n => negb (n =? 0)%Z
  | JStr s => negb (String.eqb s "")
  | JArr _ => true
  | JObj _ => true
  end.

(** Truthiness of a value that may be [undefined] (here [None]). *)
Definition truthy_opt (v : option Json) : bool :=
  match v with
  | Some j => truthy j
  | None => false
  end.

(** A string that may be [null] or [undefined]: the empty string is falsy. *)
Definition truthy_str (v : option string) : bool :=
  match v with
  | Some s => negb (String.eqb s "")
  | None => false
  end.

(** An object reference that may be [null]: any object is truthy. *)
Definition present {A : Type} (v : option A) : bool :=
  match v with
  | Some _ => true
  | None => false
  end.

(** Own property of a parsed JSON object, by key. *)
Fixpoint assoc (k : string) (fields : list (string * Json)) : option Json :=
  match fields with
  | [] => None
  | (k', v) :: rest => if String.eqb k k' then Some v else assoc k rest
  end.

(** The error objects the SDK returns in the [error] field of a response. *)
Record SdkError : Type := { message : string }.

(** What can be thrown, or what a promise can be rejected with. *)
Inductive Exn : Type :=
| NewError (msg : Json)        (* new Error(msg); the message is String(msg) *)
| SdkExn (e : SdkError)        (* throw error, for an error the SDK returned *)
| TypeError                    (* property access on null or undefined, call of a non-function *)
| Rejection (what : string).   (* any other rejection: network failure, malformed body, ... *)

(** A settled promise. *)
Inductive Outcome (X : Type) : Type :=
| Resolved (x : X)
| Rejected (e : Exn).
Arguments Resolved {X} x.
Arguments Rejected {X} e.

(** How a call of an [async] function ends. *)
Inductive Result (A : Type) : Type :=
| Returned (a : A)
| Thrown (e : Exn).
Arguments Returned {A} a.
Arguments Thrown {A} e.

(** ** Data of the SDK *)

Record User : Type := { id : string }.

(** [session?.user] is tested by the code, so the field is optional here. *)
Record Session : Type := {
  access_token : string;
  provider_token : option string;
  session_user : option User
}.

(** A row of the [profiles] table, [Tables<'profiles'>], and a
    [Partial<Profile>]: objects from column names to JSON values.  The
    generated column list is not part of the sources read here; the handlers
    only name [id], [onboarding_completed], [has_personality_insights],
    [preference_chosen] and [personality_tiles]. *)
Abbreviation Profile := (gmap string Json).

(** [{ ...prev, ...updates }] *)
Definition spread (prev updates : Profile) : Profile := updates ∪ prev.

(** [{ error }] *)
Record ErrorResponse : Type := { error : option SdkError }.

(** [{ data: { session }, error }] of [auth.getSession] *)
Record SessionResponse : Type := {
  data_session : option Session;
  session_error : option SdkError
}.

(** [{ data, error }] of [from(...).select('*').eq(...).single()] *)
Record RowResponse : Type := {
  row_data : option Profile;
  row_error : option SdkError
}.

(** A [Blob], by a handle; its text is read with [Blob.text()]. *)
Record Blob : Type := { blob_handle : string }.

(** [{ data, error }] of [storage.from(...).download(...)] *)
Record DownloadResponse : Type := {
  download_data : option Blob;
  download_error : option SdkError
}.

(** The second argument of [fetch].  [body] is the value handed to
    [JSON.stringify]. *)
Record RequestInit : Type := {
  method : string;
  headers : list (string * string);
  body : Json
}.

(** A [Response], by a handle, with its [ok] flag; its body is read with
    [Response.json()]. *)
Record Response : Type := { ok : bool; response_handle : string }.

(** ** Component state *)

Module Provider.
(** The four [useState] cells of [AuthProvider]. *)
Record State : Type := {
  session : option Session;
  user : option User;
  profile : option Profile;
  loading : bool
}.

Definition initial : State :=
  {| session := None; user := None; profile := None; loading := true |}.
End Provider.

Module LoginView.
(** The [useState] cell of the [Auth] page. *)
Record State : Type := { loading : bool }.

Definition initial : State := {| loading := false |}.
End LoginView.

Module ProfileView.
(** The three [useState] cells of the [Profile] page.  [personalityTiles]
    holds the value cast from the profile row, whatever its shape. *)
Record State : Type := {
  personalityReport : option string;
  personalityTiles : option Json;
  loading : bool
}.

Definition initial : State :=
  {| personalityReport := None; personalityTiles := None; loading := true |}.
End ProfileView.

(** The state of the application: one provider and the two pages. *)
Record App : Type := {
  provider : Provider.State;
  login : LoginView.State;
  profileView : ProfileView.State
}.

Definition initial_app : App :=
  {| provider := Provider.initial;
     login := LoginView.initial;
     profileView := ProfileView.initial |}.

(** ** Commands *)

Inductive Level : Type := Log | Warn | Error.

(** An argument of a console call. *)
Inductive LogArg : Type :=
| LStr (s : string)
| LErr (e : SdkError)
| LExn (e : Exn).

(** What [setTimeout(..., 0)] defers in the auth listener. *)
Inductive Deferred : Type :=
| FetchProfileTask (userId : string).

(** Calls that complete at once. *)
Inductive SyncCmd : Type :=
| SetSession (v : option Session)
| SetUser (v : option User)
| SetProfile (v : option Profile)
| SetProfileSpread (updates : Profile)  (* setProfile(prev => prev ? { ...prev, ...updates } : null) *)
| SetLoading (b : bool)
| LoginSetLoading (b : bool)
| SetPersonalityTiles (t : Json)
| SetPersonalityReport (text : string)
| ProfileSetLoading (b : bool)
| Navigate (to : string)
| ToastSuccess (msg : string)
| ToastError (msg : string)
| Console (lvl : Level) (args : list LogArg)
| SetTimeout0 (task : Deferred).

(** Calls that return a promise, indexed by what the promise resolves to. *)
Inductive AsyncCmd : Type → Type :=
| AuthGetSession : AsyncCmd SessionResponse
| AuthSignInWithOAuth (provider redirectTo scopes : string) : AsyncCmd ErrorResponse
| AuthSignInWithPassword (email password : string) : AsyncCmd ErrorResponse
| AuthSignUp (email password : string) (data : option (option string)) : AsyncCmd ErrorResponse
| AuthSignOut : AsyncCmd ErrorResponse
| FromSelectSingle (table column value : string) : AsyncCmd RowResponse
| FromUpdate (table : string) (updates : Profile) (column value : string) : AsyncCmd ErrorResponse
| StorageRemove (bucket : string) (paths : list string) : AsyncCmd ErrorResponse
| StorageDownload (bucket path : string) : AsyncCmd DownloadResponse
| BlobText (b : Blob) : AsyncCmd string
| Fetch (url : string) (init : RequestInit) : AsyncCmd Response
| ResponseJson (r : Response) : AsyncCmd Json.

(** What a run leaves behind, in order. *)
Inductive Event : Type :=
| Did (c : SyncCmd)
| Awaited {X : Type} (c : AsyncCmd X).

(** The backend and the network: the outcome of every awaited call. *)
Definition Oracle : Type := ∀ X : Type, AsyncCmd X → Outcome X.

(** ** Programs *)

Inductive Prog (A : Type) : Type :=
| Ret (a : A)
| Throw (e : Exn)
| Do (c : SyncCmd) (k : Prog A)
| Await {X : Type} (c : AsyncCmd X) (k : Outcome X → Prog A).
Arguments Ret {A} a.
Arguments Throw {A} e.
Arguments Do {A} c k.
Arguments Await {A X} c k.

Fixpoint bind {A B : Type} (p : Prog A) (f : A → Prog B) : Prog B :=
  match p with
  | Ret a => f a
  | Throw e => Throw e
  | Do c k => Do c (bind k f)
  | Await c k => Await c (λ o, bind (k o) f)
  end.

#[global] Instance Prog_ret : MRet Prog := λ A a, Ret a.
#[global] Instance Prog_bind : MBind Prog := λ A B f p, bind p f.

(** [try { p } catch (e) { h e }] *)
Fixpoint try_catch {A : Type} (p : Prog A) (h : Exn → Prog A) : Prog A :=
  match p with
  | Ret a => Ret a
  | Throw e => h e
  | Do c k => Do c (try_catch k h)
  | Await c k => Await c (λ o, try_catch (k o) h)
  end.

(** [try { p } finally { f }]: [f] runs on both exits, and an exception of
    [f] replaces the exit of [p]. *)
Fixpoint try_finally {A : Type} (p : Prog A) (f : Prog unit) : Prog A :=
  match p with
  | Ret a => bind f (λ _, Ret a)
  | Throw e => bind f (λ _, Throw e)
  | Do c k => Do c (try_finally k f)
  | Await c k => Await c (λ o, try_finally (k o) f)
  end.

(** [await c]: a rejection is thrown at the point of the [await]. *)
Definition await {X : Type} (c : AsyncCmd X) : Prog X :=
  Await c (λ o, match o with
                | Resolved x => Ret x
                | Rejected e => Throw e
                end).

Definition do (c : SyncCmd) : Prog unit := Do c (Ret ()).

Definition console_log (args : list LogArg) : Prog unit := do (Console Log args).
Definition console_warn (args : list LogArg) : Prog unit := do (Console Warn args).
Definition console_error (args : list LogArg) : Prog unit := do (Console Error args).

(** ** Running a program *)

Definition set_provider (f : Provider.State → Provider.State) (a : App) : App :=
  {| provider := f (provider a); login := login a; profileView := profileView a |}.

Definition set_profileView (f : ProfileView.State → ProfileView.State) (a : App) : App :=
  {| provider := provider a; login := login a; profileView := f (profileView a) |}.

(** The effect of a synchronous command on the state.  Navigation, toasts,
    the console and timers leave the state alone; they show in the trace. *)
Definition apply (c : SyncCmd) (a : App) : App :=
  match c with
  | SetSession v =>
      set_provider (λ s, {| Provider.session := v; Provider.user := Provider.user s;
                            Provider.profile := Provider.profile s;
                            Provider.loading := Provider.loading s |}) a
  | SetUser v =>
      set_provider (λ s, {| Provider.session := Provider.session s; Provider.user := v;
                            Provider.profile := Provider.profile s;
                            Provider.loading := Provider.loading s |}) a
  | SetProfile v =>
      set_provider (λ s, {| Provider.session := Provider.session s;
                            Provider.user := Provider.user s;
                            Provider.profile := v;
                            Provider.loading := Provider.loading s |}) a
  | SetProfileSpread updates =>
      set_provider (λ s, {| Provider.session := Provider.session s;
                            Provider.user := Provider.user s;
                            Provider.profile :=
                              match Provider.profile s with
                              | Some prev => Some (spread prev updates)
                              | None => None
                              end;
                            Provider.loading := Provider.loading s |}) a
  | SetLoading b =>
      set_provider (λ s, {| Provider.session := Provider.session s;
                            Provider.user := Provider.user s;
                            Provider.profile := Provider.profile s;
                            Provider.loading := b |}) a
  | LoginSetLoading b =>
      {| provider := provider a; login := {| LoginView.loading := b |};
         profileView := profileView a |}
  | SetPersonalityTiles t =>
      set_profileView (λ s, {| ProfileView.personalityReport := ProfileView.personalityReport s;
                               ProfileView.personalityTiles := Some t;
                               ProfileView.loading := ProfileView.loading s |}) a
  | SetPersonalityReport text =>
      set_profileView (λ s, {| ProfileView.personalityReport := Some text;
                               ProfileView.personalityTiles := ProfileView.personalityTiles s;
                               ProfileView.loading := ProfileView.loading s |}) a
  | ProfileSetLoading b =>
      set_profileView (λ s, {| ProfileView.personalityReport := ProfileView.personalityReport s;
                               ProfileView.personalityTiles := ProfileView.personalityTiles s;
                               ProfileView.loading := b |}) a
  | Navigate _ | ToastSuccess _ | ToastError _ | Console _ _ | SetTimeout0 _ => a
  end.

(** The end of a run: how the call ended, the state it left and the events
    it produced, oldest first. *)
Record Run (A : Type) : Type := {
  result : Result A;
  final : App;
  trace : list Event
}.
Arguments result {A} r.
Arguments final {A} r.
Arguments trace {A} r.

Definition emit {A : Type} (e : Event) (r : Run A) : Run A :=
  {| result := result r; final := final r; trace := e :: trace r |}.

(** A whole call, every awaited command answered by the oracle. *)
Fixpoint exec {A : Type} (env : Oracle) (p : Prog A) (a : App) : Run A :=
  match p with
  | Ret x => {| result := Returned x; final := a; trace := [] |}
  | Throw e => {| result := Thrown e; final := a; trace := [] |}
  | Do c k => emit (Did c) (exec env k (apply c a))
  | Await c k => emit (Awaited c) (exec env (k (env _ c)) a)
  end.

(** ** [src/context/AuthContext.tsx] *)

Module AuthContext.

Definition SUPABASE_PROJECT_ID : string := "zgdrcbdrmnhvfzygyecx".

(** [fetchProfile(userId)] *)
Definition fetchProfile (userId : string) : Prog unit :=
  try_catch
    (r ← await (FromSelectSingle "profiles" "id" userId);
     match row_error r with
     | Some error =>
         console_error [LStr "Error fetching profile:"; LStr (message error)]
     | None =>
         do (SetProfile (row_data r))
     end)
    (λ error, console_error [LStr "Error fetching profile:"; LExn error]).

(** The listener handed to [supabase.auth.onAuthStateChange]. *)
Definition onAuthStateChange (event : string) (session : option Session) : Prog unit :=
  console_log [LStr "Auth state changed:"; LStr event;
               LStr (if present session then "session exists" else "no session")];;
  match session ≫= session_user with
  | Some user =>
      do (SetSession session);;
      do (SetUser (Some user));;
      do (SetTimeout0 (FetchProfileTask (id user)))
  | None =>
      do (SetSession None);;
      do (SetUser None);;
      do (SetProfile None)
  end.

(** [initializeAuth()], started by the mount effect after the listener is
    subscribed. *)
Definition initializeAuth : Prog unit :=
  try_catch
    (r ← await AuthGetSession;
     match session_error r with
     | Some error =>
         console_error [LStr "Error getting auth session:"; LStr (message error)];;
         do (SetLoading false)
     | None =>
         match data_session r ≫= session_user with
         | Some user =>
             console_log [LStr "Found existing session"];;
             do (SetSession (data_session r));;
             do (SetUser (Some user));;
             fetchProfile (id user)
         | None => Ret ()
         end;;
         do (SetLoading false)
     end)
    (λ err,
       console_error [LStr "Error in auth initialization:"; LExn err];;
       do (SetLoading false)).

(** [signInWithGoogle()]; [origin] is [window.location.origin]. *)
Definition signInWithGoogle (origin : string) : Prog unit :=
  try_catch
    (let redirectUrl := origin in
     console_log [LStr "Using redirect URL for Google auth:"; LStr redirectUrl];;
     r ← await (AuthSignInWithOAuth "google" redirectUrl "email profile");
     match error r with
     | Some error =>
         console_error [LStr "Error signing in with Google:"; LStr (message error)];;
         Throw (SdkExn error)
     | None => Ret ()
     end)
    (λ error,
       console_error [LStr "Error signing in with Google:"; LExn error];;
       Throw error).

(** [signInWithEmail(email, password)] *)
Definition signInWithEmail (email password : string) : Prog unit :=
  try_catch
    (r ← await (AuthSignInWithPassword email password);
     match error r with
     | Some error =>
         console_error [LStr "Error signing in with email:"; LStr (message error)];;
         Throw (SdkExn error)
     | None => Ret ()
     end)
    (λ error,
       console_error [LStr "Error signing in with email:"; LExn error];;
       Throw error).

(** [signUpWithEmail(email, password, metadata)]; the outer option of
    [metadata] is the optional argument, the inner one its optional
    [full_name]. *)
Definition signUpWithEmail (email password : string)
    (metadata : option (option string)) : Prog unit :=
  try_catch
    (r ← await (AuthSignUp email password metadata);
     match error r with
     | Some error =>
         console_error [LStr "Error signing up with email:"; LStr (message error)];;
         Throw (SdkExn error)
     | None => Ret ()
     end)
    (λ error,
       console_error [LStr "Error signing up with email:"; LExn error];;
       Throw error).

(** [signOut()]; [cl] is the state the function closes over. *)
Definition signOut (cl : Provider.State) : Prog unit :=
  try_catch
    (console_log [LStr "Signing out, current session:";
                  LStr (if present (Provider.session cl) then "exists" else "none")];;
     r ← await AuthSignOut;
     match error r with
     | Some error =>
         console_error [LStr "Error signing out:"; LStr (message error)];;
         Throw (SdkExn error)
     | None =>
         do (SetSession None);;
         do (SetUser None);;
         do (SetProfile None);;
         do (Navigate "/")
     end)
    (λ error,
       console_error [LStr "Error signing out:"; LExn error];;
       do (SetSession None);;
       do (SetUser None);;
       do (SetProfile None);;
       do (Navigate "/");;
       Throw error).

(** [updateProfile(updates)] *)
Definition updateProfile (cl : Provider.State) (updates : Profile) : Prog unit :=
  try_catch
    (match Provider.user cl with
     | None => Throw (NewError (JStr "User not authenticated"))
     | Some user =>
         r ← await (FromUpdate "profiles" updates "id" (id user));
         match error r with
         | Some error =>
             console_error [LStr "Error updating profile:"; LStr (message error)];;
             Throw (SdkExn error)
         | None =>
             do (SetProfileSpread updates)
         end
     end)
    (λ error,
       console_error [LStr "Error updating profile:"; LExn error];;
       Throw error).

(** [getGoogleAuthToken()] *)
Definition getGoogleAuthToken (cl : Provider.State) : Prog (option string) :=
  try_catch
    (match Provider.session cl with
     | None => Ret None
     | Some _ =>
         r ← await AuthGetSession;
         match session_error r with
         | Some error =>
             console_error [LStr "Error getting session:"; LStr (message error)];;
             Throw (SdkExn error)
         | None =>
             let providerToken := data_session r ≫= provider_token in
             if truthy_str providerToken
             then Ret providerToken
             else
               console_warn
                 [LStr "No provider token available. User may need to re-authenticate."];;
               Ret None
         end
     end)
    (λ error,
       console_error [LStr "Error getting Google auth token:"; LExn error];;
       Ret None).

(** [result.error] on the parsed body: [null] has no properties, and only
    an object has an own [error]. *)
Definition result_error (result : Json) : Prog (option Json) :=
  match result with
  | JNull => Throw TypeError
  | JObj fields => Ret (assoc "error" fields)
  | _ => Ret None
  end.

(** [x || 'Failed to delete account'] *)
Definition or_default (x : option Json) (d : string) : Json :=
  match x with
  | Some j => if truthy j then j else JStr d
  | None => JStr d
  end.

Definition delete_user_url : string :=
  "https://" +:+ SUPABASE_PROJECT_ID +:+ ".supabase.co/functions/v1/delete-user".

Definition delete_user_init (token userId : string) : RequestInit :=
  {| method := "POST";
     headers := [("Content-Type", "application/json");
                 ("Authorization", "Bearer " +:+ token)];
     body := JObj [("userId", JStr userId)] |}.

(** [deleteAccount()] *)
Definition deleteAccount (cl : Provider.State) : Prog unit :=
  try_catch
    (match Provider.user cl, Provider.session cl with
     | Some user, Some session =>
         let token := access_token session in
         response ← await (Fetch delete_user_url (delete_user_init token (id user)));
         result ← await (ResponseJson response);
         if negb (ok response)
         then
           e ← result_error result;
           Throw (NewError (or_default e "Failed to delete account"))
         else
           console_log [LStr "Account deletion successful, clearing session"];;
           do (SetSession None);;
           do (SetUser None);;
           do (SetProfile None);;
           try_catch
             (await AuthSignOut;; Ret ())
             (λ signOutError,
                console_log [LStr "Expected sign out error after account deletion:";
                             LExn signOutError]);;
           do (Navigate "/");;
           do (ToastSuccess "Your account has been successfully deleted")
     | _, _ => Throw (NewError (JStr "User not authenticated"))
     end)
    (λ error,
       console_error [LStr "Error deleting account:"; LExn error];;
       do (ToastError "Failed to delete account. Please try again.");;
       Throw error).

(** The [updates] object of [resetUserData]. *)
Definition reset_updates : Profile :=
  <["onboarding_completed" := JBool false]>
    (<["has_personality_insights" := JBool false]>
       (<["preference_chosen" := JBool false]>
          (<["personality_tiles" := JNull]> ∅))).

(** [resetUserData()] *)
Definition resetUserData (cl : Provider.State) : Prog unit :=
  try_catch
    (match Provider.user cl with
     | None => Throw (NewError (JStr "User not authenticated"))
     | Some user =>
         let updates := reset_updates in
         r ← await (FromUpdate "profiles" updates "id" (id user));
         match error r with
         | Some error =>
             console_error [LStr "Error resetting user data:"; LStr (message error)];;
             Throw (SdkExn error)
         | None =>
             try_catch
               (let userFolder := "user_data/" +:+ id user in
                await (StorageRemove "user_files"
                         [userFolder +:+ "/personality_report.txt"]);;
                Ret ())
               (λ fileError,
                  console_log
                    [LStr "Note: No personality report file to delete or error deleting:";
                     LExn fileError]);;
             do (SetProfileSpread updates);;
             do (Navigate "/")
         end
     end)
    (λ error,
       console_error [LStr "Error resetting user data:"; LExn error];;
       Throw error).

End AuthContext.

(** ** The [Auth] page, [src/pages/Auth.tsx] *)

Module Auth.

(** [handleGoogleSignIn()], the [onClick] of the Google button. *)
Definition handleGoogleSignIn (origin : string) : Prog unit :=
  try_finally
    (try_catch
       (do (LoginSetLoading true);;
        AuthContext.signInWithGoogle origin)
       (λ error,
          console_error [LStr "Google sign in error:"; LExn error];;
          do (ToastError "Failed to sign in with Google. Please try again.")))
    (do (LoginSetLoading false)).

(** [disabled={loading}] on the button. *)
Definition button_disabled (s : LoginView.State) : bool := LoginView.loading s.

End Auth.

(** ** The [Profile] page *)

Module Profile.

(** [profile?.personality_tiles] *)
Definition profile_personality_tiles (profile : option Profile) : option Json :=
  profile ≫= (λ p : Profile, p !! "personality_tiles").

Definition report_path (userId : string) : string :=
  let userFolder := "user_data/" +:+ userId in
  userFolder +:+ "/personality_report.txt".

(** [fetchPersonalityData()], for the [user] and [profile] the effect
    closes over. *)
Definition fetchPersonalityData (user : User) (profile : option Profile) : Prog unit :=
  try_finally
    (try_catch
       (do (ProfileSetLoading true);;
        match profile_personality_tiles profile with
        | Some tiles => if truthy tiles then do (SetPersonalityTiles tiles) else Ret ()
        | None => Ret ()
        end;;
        r ← await (StorageDownload "user_files" (report_path (id user)));
        match download_error r with
        | Some error =>
            console_error [LStr "Error downloading personality report:"; LErr error]
        | None =>
            match download_data r with
            | Some data =>
                reportText ← await (BlobText data);
                do (SetPersonalityReport reportText)
            | None => Throw TypeError
            end
        end)
       (λ error, console_error [LStr "Error fetching personality data:"; LExn error]))
    (do (ProfileSetLoading false)).

(** The effect on [[user, profile, navigate]]. *)
Definition effect (user : option User) (profile : option Profile) : Prog unit :=
  match user with
  | None => do (Navigate "/auth")
  | Some u => fetchPersonalityData u profile
  end.

(** [handleLogout()], the [onLogout] of the header. *)
Definition handleLogout (cl : Provider.State) : Prog unit :=
  try_catch
    (AuthContext.signOut cl;;
     do (ToastSuccess "Logged out successfully"))
    (λ error,
       console_error [LStr "Error logging out:"; LExn error];;
       do (ToastError "Failed to log out. Please try again.")).

(** One [Card] of the grid: its title, the badges of the list under
    [key], and the text under [key ++ " Reason"]. *)
Record Card : Type := {
  title : string;
  badges : list Json;
  reason : option Json
}.

(** What the page shows. *)
Inductive View : Type :=
| Spinner
| Page (tiles : option (list Card)) (report : option string).

(** [personalityTiles[key].map(...)] and [personalityTiles[key + " Reason"]],
    on a truthy value: only an object has own properties, and only an
    array has [map]. *)
Definition card (tiles : Json) (title key : string) : Result Card :=
  match tiles with
  | JObj fields =>
      match assoc key fields with
      | Some (JArr items) =>
          Returned {| title := title; badges := items;
                      reason := assoc (key +:+ " Reason") fields |}
      | _ => Thrown TypeError
      end
  | _ => Thrown TypeError
  end.

(** The six cards, in the order of the page: key of [PersonalityTiles]
    and title shown. *)
Definition sections : list (string * string) :=
  [("Lifestyle Vibes", "Lifestyle Vibes");
   ("Food & Drink Favorites", "Food & Drink Favorites");
   ("Go-to Activities", "Go-to Activities");
   ("Favorite Neighborhoods or Place Types", "Favorite Places");
   ("Travel & Exploration", "Travel & Exploration");
   ("Other", "Other Interests")].

Fixpoint cards (tiles : Json) (l : list (string * string)) : Result (list Card) :=
  match l with
  | [] => Returned []
  | (key, title) :: rest =>
      match card tiles title key with
      | Thrown e => Thrown e
      | Returned c =>
          match cards tiles rest with
          | Thrown e => Thrown e
          | Returned cs => Returned (c :: cs)
          end
      end
  end.

(** The value the component returns. *)
Definition render (s : ProfileView.State) : Result View :=
  if ProfileView.loading s then Returned Spinner
  else
    let report :=
      if truthy_str (ProfileView.personalityReport s)
      then ProfileView.personalityReport s else None in
    match ProfileView.personalityTiles s with
    | Some tiles =>
        if truthy tiles
        then match cards tiles sections with
             | Thrown e => Thrown e
             | Returned cs => Returned (Page (Some cs) report)
             end
        else Returned (Page None report)
    | None => Returned (Page None report)
    end.

End Profile.

(** ** Reading a trace *)

(** [fetch(url, init)] calls. *)
Definition fetch_of (e : Event) : option (string * RequestInit) :=
  match e with
  | Awaited c => match c with Fetch url init => Some (url, init) | _ => None end
  | Did _ => None
  end.

(** [auth.signInWithOAuth] calls: provider, [redirectTo], [scopes]. *)
Definition oauth_of (e : Event) : option (string * string * string) :=
  match e with
  | Awaited c =>
      match c with
      | AuthSignInWithOAuth p r sc => Some (p, r, sc)
      | _ => None
      end
  | Did _ => None
  end.

(** [from(table).update(updates).eq(column, value)] calls. *)
Definition update_of (e : Event) : option (string * Profile * string * string) :=
  match e with
  | Awaited c =>
      match c with
      | FromUpdate t u col v => Some (t, u, col, v)
      | _ => None
      end
  | Did _ => None
  end.

(** [storage.from(bucket).remove(paths)] calls. *)
Definition remove_of (e : Event) : option (string * list string) :=
  match e with
  | Awaited c => match c with StorageRemove b ps => Some (b, ps) | _ => None end
  | Did _ => None
  end.

(** [storage.from(bucket).download(path)] calls. *)
Definition download_of (e : Event) : option (string * string) :=
  match e with
  | Awaited c => match c with StorageDownload b p => Some (b, p) | _ => None end
  | Did _ => None
  end.

Definition navigate_of (e : Event) : option string :=
  match e with
  | Did (Navigate to) => Some to
  | _ => None
  end.

(** Toasts of either kind, by their text. *)
Definition toast_of (e : Event) : option string :=
  match e with
  | Did (ToastSuccess m) | Did (ToastError m) => Some m
  | _ => None
  end.

Definition toast_error_of (e : Event) : option string :=
  match e with
  | Did (ToastError m) => Some m
  | _ => None
  end.

(** Anything sent to the backend or the network. *)
Definition is_awaited (e : Event) : bool :=
  match e with
  | Awaited _ => true
  | Did _ => false
  end.

(** A setter of one of the provider's cells. *)
Definition sets_provider (e : Event) : bool :=
  match e with
  | Did (SetSession _) | Did (SetUser _) | Did (SetProfile _)
  | Did (SetProfileSpread _) | Did (SetLoading _) => true
  | _ => false
  end.

(** How an SDK call that answers [{ ..., error }] failed, if it did: by
    rejecting, or by resolving with an [error]. *)
Definition failure {X : Type} (err : X → option SdkError) (o : Outcome X) : option Exn :=
  match o with
  | Rejected e => Some e
  | Resolved x => SdkExn <$> err x
  end.

(** The text of the report as storage serves it to the profile view: the
    download resolves without [error], with a blob whose text is read. *)
Definition downloaded_report (env : Oracle) (userId : string) : option string :=
  match env _ (StorageDownload "user_files" (Profile.report_path userId)) with
  | Resolved r =>
      match download_error r, download_data r with
      | None, Some data =>
          match env _ (BlobText data) with
          | Resolved text => Some text
          | Rejected _ => None
          end
      | _, _ => None
      end
  | Rejected _ => None
  end.

(** [personalityReport && ...]: the report the page shows. *)
Definition shown_report (s : ProfileView.State) : option string :=
  if truthy_str (ProfileView.personalityReport s)
  then ProfileView.personalityReport s else None.

(** The columns [resetUserData] names. *)
Definition reset_fields : list string :=
  ["onboarding_completed"; "has_personality_insights"; "preference_chosen";
   "personality_tiles"].

(** ** Handlers between awaits *)

(** A handler runs until its next [await]; other handlers run before it is
    resumed. *)
Fixpoint run_sync {A : Type} (p : Prog A) (a : App) : Prog A * App :=
  match p with
  | Do c k => run_sync k (apply c a)
  | _ => (p, a)
  end.

(** A handler invocation, whatever it returns. *)
Inductive Task : Type :=
| task {A : Type} (p : Prog A).

(** Everything the three components can start.  A closure may be stale, so
    the state a handler closes over is arbitrary. *)
Inductive handler : Task → Prop :=
| h_onAuthStateChange ev s : handler (task (AuthContext.onAuthStateChange ev s))
| h_initializeAuth : handler (task AuthContext.initializeAuth)
| h_fetchProfile uid : handler (task (AuthContext.fetchProfile uid))
| h_signInWithGoogle origin : handler (task (AuthContext.signInWithGoogle origin))
| h_signInWithEmail e pw : handler (task (AuthContext.signInWithEmail e pw))
| h_signUpWithEmail e pw md : handler (task (AuthContext.signUpWithEmail e pw md))
| h_signOut cl : handler (task (AuthContext.signOut cl))
| h_updateProfile cl u : handler (task (AuthContext.updateProfile cl u))
| h_getGoogleAuthToken cl : handler (task (AuthContext.getGoogleAuthToken cl))
| h_deleteAccount cl : handler (task (AuthContext.deleteAccount cl))
| h_resetUserData cl : handler (task (AuthContext.resetUserData cl))
| h_handleGoogleSignIn origin : handler (task (Auth.handleGoogleSignIn origin))
| h_profile_effect u p : handler (task (Profile.effect u p))
| h_handleLogout cl : handler (task (Profile.handleLogout cl)).

(** The application with its handlers in flight. *)
Record Sys : Type := {
  app : App;
  pending : list Task
}.

Definition initial_sys : Sys := {| app := initial_app; pending := [] |}.

(** Run [p] up to its next await and park what is left of it. *)
Definition advance {A : Type} (p : Prog A) (s : Sys) (others : list Task) : Sys :=
  let '(p', a') := run_sync p (app s) in
  {| app := a';
     pending := match p' with
                | Await _ _ => task p' :: others
                | _ => others
                end |}.

Inductive step : Sys → Sys → Prop :=
| step_start {A} (p : Prog A) s :
    handler (task p) →
    step s (advance p s (pending s))
| step_settle {A X} (c : AsyncCmd X) (k : Outcome X → Prog A) (o : Outcome X) s before after :
    pending s = before ++ task (Await c k) :: after →
    step s (advance (k o) s (before ++ after)).

Inductive reachable : Sys → Prop :=
| reachable_initial : reachable initial_sys
| reachable_step s s' : reachable s → step s s' → reachable s'.

(** The session and the user the provider exposes belong together. *)
Definition synced (a : App) : Prop :=
  match Provider.session (provider a) with
  | Some s => is_Some (session_user s) ∧ Provider.user (provider a) = session_user s
  | None => Provider.user (provider a) = None
  end.

(** [p] keeps [synced] at each of its awaits and at its end, whatever the
    state it is resumed in, as long as that state is [synced]. *)
Fixpoint safe {A : Type} (p : Prog A) (a : App) : Prop :=
  match p with
  | Ret _ | Throw _ => synced a
  | Do c k => safe k (apply c a)
  | Await c k => synced a ∧ ∀ o a', synced a' → safe (k o) a'
  end.

Definition safe_task (t : Task) : Prop :=
  match t with
  | task p =>
      match p with
      | Await c k => ∀ o a', synced a' → safe (k o) a'
      | _ => True
      end
  end.

(** A handler that may be started in any [synced] state. *)
Definition safe_start (t : Task) : Prop :=
  match t with
  | task p => ∀ a, synced a → safe p a
  end.

(** The invariant of the running application: the state is [synced] and so
    is whatever a parked handler does when it is resumed. *)
Definition sys_inv (s : Sys) : Prop :=
  synced (app s) ∧ Forall safe_task (pending s).

(** ** Further readers *)

(** [from(table).select('*').eq(column, value).single()] calls. *)
Definition select_of (e : Event) : option (string * string * string) :=
  match e with
  | Awaited c =>
      match c with
      | FromSelectSingle t col v => Some (t, col, v)
      | _ => None
      end
  | Did _ => None
  end.

(** What the run handed to [setTimeout]. *)
Definition timeout_of (e : Event) : option Deferred :=
  match e with
  | Did (SetTimeout0 t) => Some t
  | _ => None
  end.

(** The session with a user that [auth.getSession] answers with, when it
    answers without [error]. *)
Definition existing_session (o : Outcome SessionResponse) : option (Session * User) :=
  match o with
  | Resolved x =>
      match session_error x with
      | Some _ => None
      | None => s ← data_session x; u ← session_user s; Some (s, u)
      end
  | Rejected _ => None
  end.

(** The row a profile query answers with, when it answers without
    [error]; the row itself may be null. *)
Definition fetched_row (o : Outcome RowResponse) : option (option Profile) :=
  match o with
  | Resolved x =>
      match row_error x with
      | Some _ => None
      | None => Some (row_data x)
      end
  | Rejected _ => None
  end.

(** Whether the delete-user function confirms the deletion to
    [deleteAccount]: the request resolves, the body of the response parses
    and the response is ok. *)
Definition deletion_confirmed (env : Oracle) (token userId : string) : bool :=
  match env _ (Fetch AuthContext.delete_user_url
                 (AuthContext.delete_user_init token userId)) with
  | Resolved response =>
      match env _ (ResponseJson response) with
      | Resolved _ => ok response
      | Rejected _ => false
      end
  | Rejected _ => false
  end.

(** [auth.signOut()] calls. *)
Definition is_sign_out (e : Event) : bool :=
  match e with
  | Awaited c => match c with AuthSignOut => true | _ => false end
  | Did _ => false
  end.

(** The items under [key] when they are an array. *)
Definition array_at (fields : list (string * Json)) (key : string) : option (list Json) :=
  match assoc key fields with
  | Some (JArr items) => Some items
  | _ => None
  end.

(** The shape the page relies on, [PersonalityTiles]: an object with an
    array under each of the six list keys. *)
Definition fixed_shape (tiles : Json) : bool :=
  match tiles with
  | JObj fields => forallb (λ kt, present (array_at fields kt.1)) Profile.sections
  | _ => false
  end.

(** The card of one section of a well-shaped object. *)
Definition card_of (fields : list (string * Json)) (kt : string * string) : Profile.Card :=
  {| Profile.title := kt.2;
     Profile.badges := default [] (array_at fields kt.1);
     Profile.reason := assoc (kt.1 +:+ " Reason") fields |}.

(** ** Schedules *)

(** Start a handler in [s]: it runs to its first await. *)
Definition start {A : Type} (p : Prog A) (s : Sys) : Sys :=
  advance p s (pending s).

(** Settle the await of the [i]-th parked handler with the answer of the
    oracle and run the handler to its next await. *)
Definition resume (env : Oracle) (i : nat) (s : Sys) : Sys :=
  match pending s !! i with
  | Some (task p) =>
      match p with
      | Await c k => advance (k (env _ c)) s (delete i (pending s))
      | _ => s
      end
  | None => s
  end.

(** Every synchronous command [p] can issue, on any answers, satisfies [P]. *)
Fixpoint issues_only {A : Type} (P : SyncCmd → Prop) (p : Prog A) : Prop :=
  match p with
  | Ret _ | Throw _ => True
  | Do c k => P c ∧ issues_only P k
  | Await c k => ∀ o, issues_only P (k o)
  end.

(** Anything but [setLoading(true)] of the provider. *)
Definition not_loading (c : SyncCmd) : Prop := c ≠ SetLoading true.

Definition quiet_task (t : Task) : Prop :=
  match t with
  | task p => issues_only not_loading p
  end.

(** A call that ends by throwing. *)
Definition throws {A : Type} (r : Run A) : Prop := ∃ e, result r = Thrown e.

(** ** Concrete inputs *)

Module Sample.

Definition alice : User := {| id := "alice" |}.

Definition alice_session : Session :=
  {| access_token := "tok-1"; provider_token := Some "ya29"; session_user := Some alice |}.

Definition denied : SdkError := {| message := "denied" |}.

Definition tiles : Json :=
  JObj [("Lifestyle Vibes", JArr [JStr "Night owl"]);
        ("Lifestyle Vibes Reason", JStr "Late check-ins");
        ("Food & Drink Favorites", JArr [JStr "Ramen"]);
        ("Food & Drink Favorites Reason", JStr "Weekly visits");
        ("Go-to Activities", JArr [JStr "Climbing"]);
        ("Go-to Activities Reason", JStr "Gym membership");
        ("Favorite Neighborhoods or Place Types", JArr [JStr "Old town"]);
        ("Favorite Neighborhoods or Place Types Reason", JStr "Frequent walks");
        ("Travel & Exploration", JArr [JStr "Day trips"]);
        ("Travel & Exploration Reason", JStr "Train tickets");
        ("Other", JArr []);
        ("Other Reason", JStr "")].

Definition alice_profile : Profile :=
  <["id" := JStr "alice"]>
    (<["full_name" := JStr "Alice"]>
       (<["onboarding_completed" := JBool true]>
          (<["has_personality_insights" := JBool true]>
             (<["preference_chosen" := JBool true]>
                (<["personality_tiles" := tiles]> ∅))))).

Definition signed_in : Provider.State :=
  {| Provider.session := Some alice_session; Provider.user := Some alice;
     Provider.profile := Some alice_profile; Provider.loading := false |}.

Definition signed_in_app : App :=
  {| provider := signed_in; login := LoginView.initial; profileView := ProfileView.initial |}.

(** A backend on which every call succeeds. *)
Definition backend_ok : Oracle :=
  λ X c,
    match c in AsyncCmd X0 return Outcome X0 with
    | AuthGetSession =>
        Resolved {| data_session := Some alice_session; session_error := None |}
    | AuthSignInWithOAuth _ _ _ => Resolved {| error := None |}
    | AuthSignInWithPassword _ _ => Resolved {| error := None |}
    | AuthSignUp _ _ _ => Resolved {| error := None |}
    | AuthSignOut => Resolved {| error := None |}
    | FromSelectSingle _ _ _ =>
        Resolved {| row_data := Some alice_profile; row_error := None |}
    | FromUpdate _ _ _ _ => Resolved {| error := None |}
    | StorageRemove _ _ => Resolved {| error := None |}
    | StorageDownload _ _ =>
        Resolved {| download_data := Some {| blob_handle := "report" |};
                    download_error := None |}
    | BlobText _ => Resolved "You like ramen."
    | Fetch _ _ => Resolved {| ok := true; response_handle := "r1" |}
    | ResponseJson _ => Resolved (JObj [("success", JBool true)])
    end.

(** The SDK answers every [{ error }] call with an error. *)
Definition backend_denies : Oracle :=
  λ X c,
    match c in AsyncCmd X0 return Outcome X0 with
    | AuthGetSession =>
        Resolved {| data_session := None; session_error := Some denied |}
    | AuthSignInWithOAuth _ _ _ => Resolved {| error := Some denied |}
    | AuthSignInWithPassword _ _ => Resolved {| error := Some denied |}
    | AuthSignUp _ _ _ => Resolved {| error := Some denied |}
    | AuthSignOut => Resolved {| error := Some denied |}
    | FromSelectSingle _ _ _ =>
        Resolved {| row_data := None; row_error := Some denied |}
    | FromUpdate _ _ _ _ => Resolved {| error := Some denied |}
    | StorageRemove _ _ => Resolved {| error := Some denied |}
    | StorageDownload _ _ =>
        Resolved {| download_data := None; download_error := Some denied |}
    | BlobText _ => Rejected (Rejection "NotReadableError")
    | Fetch _ _ => Resolved {| ok := false; response_handle := "r2" |}
    | ResponseJson _ => Resolved (JObj [("error", JStr "Unauthorized")])
    end.

(** The function answers 200 with a body that is not JSON. *)
Definition backend_empty_body : Oracle :=
  λ X c,
    match c in AsyncCmd X0 return Outcome X0 with
    | Fetch _ _ => Resolved {| ok := true; response_handle := "r3" |}
    | ResponseJson _ => Rejected (Rejection "SyntaxError: Unexpected end of JSON input")
    | c0 => backend_ok _ c0
    end.

(** The database update succeeds and the storage call rejects. *)
Definition backend_storage_down : Oracle :=
  λ X c,
    match c in AsyncCmd X0 return Outcome X0 with
    | StorageRemove _ _ => Rejected (Rejection "Failed to fetch")
    | StorageDownload _ _ => Rejected (Rejection "Failed to fetch")
    | c0 => backend_ok _ c0
    end.

End Sample.

(** * Theorems *)

(** ** Running handlers *)

(** Closes the goals left once a run is computed on one outcome of the
    oracle. *)
Ltac settle :=
  repeat split; intros;
  repeat match goal with
         | H : is_Some _ |- _ => destruct H as [? H]
         | H : throws _ |- _ => destruct H as [? H]
         end;
  simplify_eq/=; eauto; try done.

Lemma append_assoc (s1 s2 s3 : string) : (s1 +:+ s2) +:+ s3 = s1 +:+ s2 +:+ s3.
Proof.
  induction s1 as [|c s1 IH]; [reflexivity |].
  change (String c ((s1 +:+ s2) +:+ s3) = String c (s1 +:+ s2 +:+ s3)).
  by rewrite IH.
Qed.

(** The path both [resetUserData] and the profile view build from
    [userFolder]. *)
Lemma report_path_eq (userId : string) :
  Profile.report_path userId = "user_data/" +:+ userId +:+ "/personality_report.txt".
Proof. unfold Profile.report_path; cbv zeta. apply append_assoc. Qed.

(** ** Sign out *)

(** C8. [signOut] clears the provider on every outcome of the SDK call: the
    session, the user and the profile are null in the state it leaves, it
    navigates to "/" once, and it ends by rethrowing the failure when the
    SDK failed (by an [error] or by rejecting) and returns otherwise; the
    state in which the error is thrown is the cleared one. *)
Theorem signOut_clears_on_every_outcome (env : Oracle) (cl : Provider.State) (a : App) :
  let r := exec env (AuthContext.signOut cl) a in
  Provider.session (provider (final r)) = None
  ∧ Provider.user (provider (final r)) = None
  ∧ Provider.profile (provider (final r)) = None
  ∧ omap navigate_of (trace r) = ["/"]
  ∧ result r = match failure error (env _ AuthSignOut) with
               | Some e => Thrown e
               | None => Returned ()
               end.
Proof.
  unfold AuthContext.signOut; cbn.
  destruct (env _ AuthSignOut) as [[[e|]]|e]; cbn; done.
Qed.

(** ** The provider token *)

(** C10. [getGoogleAuthToken] never rejects: on every provider state and
    every outcome of the SDK call it returns, a token or null; it returns
    null when there is no current session, when the SDK call fails (by an
    [error] or by rejecting) and when the refreshed session carries no
    provider token; a token it returns is the non-empty provider token of
    the refreshed session.  It leaves the state as it was. *)
Theorem getGoogleAuthToken_never_rejects (env : Oracle) (cl : Provider.State) (a : App) :
  let r := exec env (AuthContext.getGoogleAuthToken cl) a in
  let sdk := env _ AuthGetSession in
  (∃ v : option string, result r = Returned v)
  ∧ (Provider.session cl = None → result r = Returned None)
  ∧ (is_Some (failure session_error sdk) → result r = Returned None)
  ∧ (∀ x, sdk = Resolved x →
       truthy_str (data_session x ≫= provider_token) = false →
       result r = Returned None)
  ∧ (∀ tok, result r = Returned (Some tok) →
       ∃ x s, is_Some (Provider.session cl) ∧ sdk = Resolved x
              ∧ session_error x = None ∧ data_session x = Some s
              ∧ provider_token s = Some tok ∧ tok ≠ "")
  ∧ final r = a.
Proof.
  unfold AuthContext.getGoogleAuthToken; cbn.
  destruct (Provider.session cl) as [s0|]; cbn; [| by settle].
  destruct (env _ AuthGetSession) as [[ds [e|]]|e]; cbn; [by settle | | by settle].
  destruct ds as [s|]; cbn; [| by settle].
  destruct (provider_token s) as [tok|] eqn:Htok; cbn; [| settle; by rewrite Htok in *].
  destruct (String.eqb tok "") eqn:Hemp; cbn; [by settle |].
  settle.
  - rewrite Htok in *; cbn in *. by rewrite Hemp in *.
  - eexists _, s. repeat split; eauto.
    intros ->. by rewrite String.eqb_refl in Hemp.
Qed.

(** ** Sign in *)

(** [signInWithGoogle] ends by rethrowing the failure of the SDK call, if
    there is one, and returns otherwise. *)
Lemma signInWithGoogle_result (env : Oracle) (origin : string) (a : App) :
  result (exec env (AuthContext.signInWithGoogle origin) a)
  = match failure error (env _ (AuthSignInWithOAuth "google" origin "email profile")) with
    | Some e => Thrown e
    | None => Returned ()
    end.
Proof.
  unfold AuthContext.signInWithGoogle; cbn.
  destruct (env _ (AuthSignInWithOAuth _ _ _)) as [[[e|]]|e]; cbn; done.
Qed.

(** C7. One press of the Google button makes one call of [signInWithOAuth],
    with provider 'google', the window origin as redirect URL and scopes
    'email profile'; [signInWithGoogle] throws exactly when the SDK reports
    an error (an [error] in the answer, or a rejection); the handler waits
    for the call with [loading] set, that is with the button disabled, and
    leaves [loading] false on every outcome. *)
Theorem google_sign_in_invokes_oauth (env : Oracle) (origin : string) (a : App) :
  let call := AuthSignInWithOAuth "google" origin "email profile" in
  let r := exec env (Auth.handleGoogleSignIn origin) a in
  omap oauth_of (trace r) = [("google", origin, "email profile")]
  ∧ (throws (exec env (AuthContext.signInWithGoogle origin) a)
     ↔ is_Some (failure error (env _ call)))
  ∧ (∃ k a', run_sync (Auth.handleGoogleSignIn origin) a = (Await call k, a')
             ∧ Auth.button_disabled (login a') = true)
  ∧ Auth.button_disabled (login (final r)) = false.
Proof.
  cbv zeta. split; [| split; [| split]].
  - unfold Auth.handleGoogleSignIn, AuthContext.signInWithGoogle; cbn.
    destruct (env _ (AuthSignInWithOAuth _ _ _)) as [[[e|]]|e]; cbn; done.
  - unfold throws. rewrite signInWithGoogle_result.
    destruct (failure _ _); split; intros H; eauto; by destruct H.
  - unfold Auth.handleGoogleSignIn, AuthContext.signInWithGoogle; cbn. eauto.
  - unfold Auth.handleGoogleSignIn, AuthContext.signInWithGoogle; cbn.
    destruct (env _ (AuthSignInWithOAuth _ _ _)) as [[[e|]]|e]; cbn; done.
Qed.

(** ** Failures shown to the user *)

Lemma signOut_result (env : Oracle) (cl : Provider.State) (a : App) :
  result (exec env (AuthContext.signOut cl) a)
  = match failure error (env _ AuthSignOut) with
    | Some e => Thrown e
    | None => Returned ()
    end.
Proof.
  unfold AuthContext.signOut; cbn.
  destruct (env _ AuthSignOut) as [[[e|]]|e]; cbn; done.
Qed.

(** The profile view's effect never throws and never shows a toast. *)
Lemma profile_effect_silent (env : Oracle) (u : option User) (profile : option Profile)
    (a : App) :
  let r := exec env (Profile.effect u profile) a in
  result r = Returned () ∧ omap toast_of (trace r) = [].
Proof.
  destruct u as [u|]; cbn; [| done].
  unfold Profile.fetchPersonalityData; cbn.
  destruct (Profile.profile_personality_tiles profile) as [t|]; cbn;
    [destruct (truthy t); cbn |];
    (destruct (env _ (StorageDownload _ _)) as [[[b|] [e|]]|e]; cbn; try done;
     destruct (env _ (BlobText _)) as [txt|e]; cbn; done).
Qed.

(** C6, as the code has it.  A rejection of [signInWithGoogle] in the login
    view's handler and a rejection of [signOut] in the logout handler are
    each answered with one error toast and are not propagated: the handler
    returns.  A failure of the personality report download is not shown to
    the user: the effect of the profile view returns without any toast on
    every outcome, and a failed download leaves a [console.error] line. *)
Theorem rejections_toasted_except_report_download
    (env : Oracle) (origin : string) (cl : Provider.State)
    (u : User) (profile : option Profile) (a : App) :
  let r1 := exec env (Auth.handleGoogleSignIn origin) a in
  let r2 := exec env (Profile.handleLogout cl) a in
  let r3 := exec env (Profile.effect (Some u) profile) a in
  result r1 = Returned ()
  ∧ (throws (exec env (AuthContext.signInWithGoogle origin) a) →
     omap toast_error_of (trace r1) = ["Failed to sign in with Google. Please try again."])
  ∧ result r2 = Returned ()
  ∧ (throws (exec env (AuthContext.signOut cl) a) →
     omap toast_error_of (trace r2) = ["Failed to log out. Please try again."])
  ∧ result r3 = Returned ()
  ∧ omap toast_of (trace r3) = []
  ∧ (is_Some (failure download_error
                (env _ (StorageDownload "user_files" (Profile.report_path (id u))))) →
     ∃ args, Did (Console Error args) ∈ trace r3).
Proof.
  cbv zeta. repeat apply conj.
  - unfold Auth.handleGoogleSignIn, AuthContext.signInWithGoogle; cbn.
    destruct (env _ (AuthSignInWithOAuth _ _ _)) as [[[e|]]|e]; cbn; done.
  - unfold throws. rewrite signInWithGoogle_result.
    unfold Auth.handleGoogleSignIn, AuthContext.signInWithGoogle; cbn.
    destruct (env _ (AuthSignInWithOAuth _ _ _)) as [[[e|]]|e]; cbn; try done.
    by intros [? [=]].
  - unfold Profile.handleLogout, AuthContext.signOut; cbn.
    destruct (env _ AuthSignOut) as [[[e|]]|e]; cbn; done.
  - unfold throws. rewrite signOut_result.
    unfold Profile.handleLogout, AuthContext.signOut; cbn.
    destruct (env _ AuthSignOut) as [[[e|]]|e]; cbn; try done.
    by intros [? [=]].
  - apply (profile_effect_silent env (Some u)).
  - apply (profile_effect_silent env (Some u)).
  - cbn. unfold Profile.fetchPersonalityData; cbn.
    destruct (Profile.profile_personality_tiles profile) as [t|]; cbn;
      [destruct (truthy t); cbn |];
      (destruct (env _ (StorageDownload _ _)) as [[[b|] [e|]]|e]; cbn;
       try (by intros [? [=]]); intros _; eexists;
       repeat first [apply list_elem_of_here | apply list_elem_of_further]).
Qed.

(** C6 as stated fails on the report download: the download promise rejects
    and the profile view shows no toast. *)
Lemma report_download_failure_not_toasted :
  let env := Sample.backend_storage_down in
  let r := exec env (Profile.effect (Some Sample.alice) (Some Sample.alice_profile))
             Sample.signed_in_app in
  env _ (StorageDownload "user_files" "user_data/alice/personality_report.txt")
    = Rejected (Rejection "Failed to fetch")
  ∧ omap download_of (trace r) = [("user_files", "user_data/alice/personality_report.txt")]
  ∧ omap toast_of (trace r) = [].
Proof. vm_compute. done. Qed.

(** ** The profile view *)

(** C3, as the code has it.  For a signed-in user the profile view makes one
    storage download, of user_data/<user id>/personality_report.txt in the
    user_files bucket, and the report it holds afterwards is the text of
    that download (the earlier one when the download or the read fails).
    The tile structure does not come from storage: it is the
    [personality_tiles] value of the profile row the provider holds, when
    that value is truthy (the earlier tiles otherwise), and it is this
    value the page renders, card by card, with the non-empty report. *)
Theorem profile_view_sources (env : Oracle) (u : User) (profile : option Profile) (a : App) :
  let r := exec env (Profile.effect (Some u) profile) a in
  let s := profileView a in
  let s' := profileView (final r) in
  let row_tiles := Profile.profile_personality_tiles profile in
  omap download_of (trace r)
    = [("user_files", "user_data/" +:+ id u +:+ "/personality_report.txt")]
  ∧ ProfileView.personalityReport s'
    = match downloaded_report env (id u) with
      | Some text => Some text
      | None => ProfileView.personalityReport s
      end
  ∧ ProfileView.personalityTiles s'
    = (if truthy_opt row_tiles then row_tiles else ProfileView.personalityTiles s)
  ∧ ProfileView.loading s' = false
  ∧ (∀ t, row_tiles = Some t → truthy t = true →
       Profile.render s'
       = match Profile.cards t Profile.sections with
         | Returned cs => Returned (Profile.Page (Some cs) (shown_report s'))
         | Thrown e => Thrown e
         end).
Proof.
  cbv zeta. rewrite <- report_path_eq. unfold downloaded_report.
  cbn. unfold Profile.fetchPersonalityData; cbn.
  destruct (Profile.profile_personality_tiles profile) as [t|]; cbn;
    [destruct (truthy t) eqn:Ht; cbn |];
    (destruct (env _ (StorageDownload _ _)) as [[[b|] [e|]]|e]; cbn;
     try (destruct (env _ (BlobText b)) as [txt|e']; cbn));
    repeat split; intros; simplify_eq/=; try done; try congruence;
    unfold Profile.render; cbn; by rewrite ?Ht.
Qed.

(** C3 as stated fails on the tiles: with a storage layer that serves
    nothing the page still renders the six cards of the profile row, and on
    the same storage answers a provider without a profile renders none. *)
Lemma tiles_rendered_without_storage :
  let env := Sample.backend_storage_down in
  let with_row := exec env (Profile.effect (Some Sample.alice) (Some Sample.alice_profile))
                    Sample.signed_in_app in
  let without_row := exec env (Profile.effect (Some Sample.alice) None)
                       Sample.signed_in_app in
  env _ (StorageDownload "user_files" "user_data/alice/personality_report.txt")
    = Rejected (Rejection "Failed to fetch")
  ∧ omap download_of (trace with_row)
    = [("user_files", "user_data/alice/personality_report.txt")]
  ∧ (∃ cs, Profile.cards Sample.tiles Profile.sections = Returned cs
           ∧ length cs = 6
           ∧ Profile.render (profileView (final with_row))
             = Returned (Profile.Page (Some cs) None))
  ∧ Profile.render (profileView (final without_row)) = Returned (Profile.Page None None).
Proof.
  cbv zeta. split; [done |]. split; [by vm_compute |]. split; [| by vm_compute].
  eexists. split; [by vm_compute |]. split; [done | by vm_compute].
Qed.

(** ** Account deletion *)

Lemma delete_user_url_eq :
  AuthContext.delete_user_url
  = "https://zgdrcbdrmnhvfzygyecx.supabase.co/functions/v1/delete-user".
Proof. reflexivity. Qed.

(** C1, as the code has it.  A call of [deleteAccount] with a user and a
    session makes exactly one remote function call, a POST to the
    delete-user function with the session's access token as Bearer
    Authorization header and the user's id in the JSON body; when the
    response is ok and its body parses as JSON, the session, the user and
    the profile of the provider are null afterwards. *)
Theorem deleteAccount_single_function_call
    (env : Oracle) (cl : Provider.State) (a : App) (u : User) (s : Session) :
  Provider.user cl = Some u →
  Provider.session cl = Some s →
  let url := "https://zgdrcbdrmnhvfzygyecx.supabase.co/functions/v1/delete-user" in
  let request :=
    {| method := "POST";
       headers := [("Content-Type", "application/json");
                   ("Authorization", "Bearer " +:+ access_token s)];
       body := JObj [("userId", JStr (id u))] |} in
  let r := exec env (AuthContext.deleteAccount cl) a in
  omap fetch_of (trace r) = [(url, request)]
  ∧ (∀ response parsed,
       env _ (Fetch url request) = Resolved response →
       ok response = true →
       env _ (ResponseJson response) = Resolved parsed →
       Provider.session (provider (final r)) = None
       ∧ Provider.user (provider (final r)) = None
       ∧ Provider.profile (provider (final r)) = None).
Proof.
  intros Hu Hs. cbv zeta. rewrite <- delete_user_url_eq.
  unfold AuthContext.deleteAccount, AuthContext.delete_user_init. rewrite Hu, Hs; cbn.
  destruct (env _ (Fetch _ _)) as [response|e]; cbn; [| by settle].
  destruct (env _ (ResponseJson response)) as [parsed|e] eqn:Hjson; cbn;
    [| settle; congruence].
  destruct (ok response) eqn:Hok; cbn.
  - destruct (env _ AuthSignOut) as [?|e]; cbn; by settle.
  - destruct parsed; cbn; settle; congruence.
Qed.

Lemma deleteAccount_single_function_call_witness :
  Provider.user Sample.signed_in = Some Sample.alice
  ∧ Provider.session Sample.signed_in = Some Sample.alice_session
  ∧ let r := exec Sample.backend_ok (AuthContext.deleteAccount Sample.signed_in)
               Sample.signed_in_app in
    omap fetch_of (trace r)
    = [("https://zgdrcbdrmnhvfzygyecx.supabase.co/functions/v1/delete-user",
        {| method := "POST";
           headers := [("Content-Type", "application/json");
                       ("Authorization", "Bearer tok-1")];
           body := JObj [("userId", JStr "alice")] |})]
    ∧ Provider.session (provider (final r)) = None
    ∧ Provider.user (provider (final r)) = None
    ∧ Provider.profile (provider (final r)) = None.
Proof.
  split; [reflexivity |]. split; [reflexivity |].
  destruct (deleteAccount_single_function_call Sample.backend_ok Sample.signed_in
              Sample.signed_in_app Sample.alice Sample.alice_session eq_refl eq_refl)
    as [Hcall Hcleared].
  split; [exact Hcall |].
  exact (Hcleared _ _ eq_refl eq_refl eq_refl).
Defined.

(** C1 as stated fails on a response that is ok and has no JSON body: the
    body is read before [ok] is looked at, the read rejects, and the
    provider keeps its session, user and profile. *)
Lemma deleteAccount_ok_response_without_body :
  let env := Sample.backend_empty_body in
  let r := exec env (AuthContext.deleteAccount Sample.signed_in) Sample.signed_in_app in
  (∃ response,
     env _ (Fetch "https://zgdrcbdrmnhvfzygyecx.supabase.co/functions/v1/delete-user"
              (AuthContext.delete_user_init "tok-1" "alice")) = Resolved response
     ∧ ok response = true)
  ∧ provider (final r) = Sample.signed_in
  ∧ Provider.session (provider (final r)) ≠ None
  ∧ result r = Thrown (Rejection "SyntaxError: Unexpected end of JSON input").
Proof.
  cbv zeta. split; [by eexists |]. by vm_compute.
Qed.

(** ** Profile updates *)

(** [{ ...prev, ...updates }], key by key: a key of [updates] takes its
    value there, every other key keeps the value of [prev]. *)
Lemma lookup_spread (prev updates : Profile) (k : string) :
  spread prev updates !! k
  = match updates !! k with
    | Some v => Some v
    | None => prev !! k
    end.
Proof.
  unfold spread. rewrite lookup_union.
  destruct (updates !! k), (prev !! k); done.
Qed.

Lemma reset_updates_other (k : string) :
  k ∉ reset_fields → AuthContext.reset_updates !! k = None.
Proof.
  unfold reset_fields, AuthContext.reset_updates. intros Hk.
  rewrite !not_elem_of_cons in Hk. destruct Hk as (? & ? & ? & ? & _).
  by rewrite !lookup_insert_ne, lookup_empty.
Qed.

(** The local profile after a [setProfile(prev => prev ? {...} : null)]
    with the reset columns. *)
Lemma spread_reset (prev : Profile) :
  let next := spread prev AuthContext.reset_updates in
  next !! "onboarding_completed" = Some (JBool false)
  ∧ next !! "has_personality_insights" = Some (JBool false)
  ∧ next !! "preference_chosen" = Some (JBool false)
  ∧ next !! "personality_tiles" = Some JNull
  ∧ ∀ k, k ∉ reset_fields → next !! k = prev !! k.
Proof.
  cbv zeta. rewrite !lookup_spread. repeat split.
  intros k Hk. by rewrite lookup_spread, reset_updates_other.
Qed.

(** What [resetUserData] does for a user, on each outcome of the database
    update and whatever the storage call answers. *)
Lemma resetUserData_run (env : Oracle) (cl : Provider.State) (a : App) (u : User) :
  Provider.user cl = Some u →
  let r := exec env (AuthContext.resetUserData cl) a in
  let path := "user_data/" +:+ id u +:+ "/personality_report.txt" in
  omap update_of (trace r) = [("profiles", AuthContext.reset_updates, "id", id u)]
  ∧ match failure error (env _ (FromUpdate "profiles" AuthContext.reset_updates "id" (id u))) with
    | Some e =>
        result r = Thrown e
        ∧ final r = a
        ∧ omap remove_of (trace r) = []
        ∧ omap navigate_of (trace r) = []
        ∧ filter (λ ev, sets_provider ev = true) (trace r) = []
    | None =>
        result r = Returned ()
        ∧ omap remove_of (trace r) = [("user_files", [path])]
        ∧ omap navigate_of (trace r) = ["/"]
        ∧ Provider.profile (provider (final r))
          = (λ prev, spread prev AuthContext.reset_updates) <$> Provider.profile (provider a)
        ∧ Provider.session (provider (final r)) = Provider.session (provider a)
        ∧ Provider.user (provider (final r)) = Provider.user (provider a)
        ∧ Provider.loading (provider (final r)) = Provider.loading (provider a)
    end.
Proof.
  intros Hu. cbv zeta. rewrite <- append_assoc.
  unfold AuthContext.resetUserData. rewrite Hu; cbn.
  destruct (env _ (FromUpdate _ _ _ _)) as [[[e|]]|e]; cbn; try done.
  destruct (env _ (StorageRemove _ _)) as [?|e]; cbn;
    destruct (Provider.profile (provider a)); done.
Qed.

(** C2, as the code has it.  A call of [resetUserData] for a user whose
    database update succeeds sends to the user's profiles row an update of
    exactly four columns, [onboarding_completed], [has_personality_insights]
    and [preference_chosen] to false and [personality_tiles] to null, asks
    storage to remove exactly one object, user_data/<user id>/personality_report.txt
    of the user_files bucket, and resets the same four fields of the local
    profile, every other field of it keeping its value. *)
Theorem resetUserData_resets_four_fields
    (env : Oracle) (cl : Provider.State) (a : App) (u : User) :
  Provider.user cl = Some u →
  failure error (env _ (FromUpdate "profiles" AuthContext.reset_updates "id" (id u))) = None →
  let r := exec env (AuthContext.resetUserData cl) a in
  (∃ updates,
     omap update_of (trace r) = [("profiles", updates, "id", id u)]
     ∧ updates !! "onboarding_completed" = Some (JBool false)
     ∧ updates !! "has_personality_insights" = Some (JBool false)
     ∧ updates !! "preference_chosen" = Some (JBool false)
     ∧ updates !! "personality_tiles" = Some JNull
     ∧ ∀ k, k ∉ reset_fields → updates !! k = None)
  ∧ omap remove_of (trace r)
    = [("user_files", ["user_data/" +:+ id u +:+ "/personality_report.txt"])]
  ∧ (∀ prev, Provider.profile (provider a) = Some prev →
       ∃ next, Provider.profile (provider (final r)) = Some next
               ∧ next !! "onboarding_completed" = Some (JBool false)
               ∧ next !! "has_personality_insights" = Some (JBool false)
               ∧ next !! "preference_chosen" = Some (JBool false)
               ∧ next !! "personality_tiles" = Some JNull
               ∧ ∀ k, k ∉ reset_fields → next !! k = prev !! k).
Proof.
  intros Hu Hok. cbv zeta.
  destruct (resetUserData_run env cl a u Hu) as [Hupd Hrun].
  rewrite Hok in Hrun. destruct Hrun as (_ & Hrm & _ & Hprof & _).
  split; [| split; [exact Hrm |]].
  - eexists. split; [exact Hupd |]. repeat split. apply reset_updates_other.
  - intros prev Hprev. rewrite Hprev in Hprof. eexists. split; [exact Hprof |].
    apply spread_reset.
Qed.

Lemma resetUserData_resets_four_fields_witness :
  Provider.user Sample.signed_in = Some Sample.alice
  ∧ (let r := exec Sample.backend_ok (AuthContext.resetUserData Sample.signed_in)
                Sample.signed_in_app in
     omap remove_of (trace r) = [("user_files", ["user_data/alice/personality_report.txt"])]
     ∧ ∃ next, Provider.profile (provider (final r)) = Some next
               ∧ next !! "onboarding_completed" = Some (JBool false)
               ∧ next !! "personality_tiles" = Some JNull
               ∧ next !! "full_name" = Some (JStr "Alice")).
Proof.
  split; [reflexivity |].
  destruct (resetUserData_resets_four_fields Sample.backend_ok Sample.signed_in
              Sample.signed_in_app Sample.alice eq_refl eq_refl)
    as (_ & Hrm & Hlocal).
  split; [exact Hrm |].
  destruct (Hlocal Sample.alice_profile eq_refl) as (next & Hnext & H1 & _ & _ & H4 & Hframe).
  exists next. split; [exact Hnext |]. split; [exact H1 |]. split; [exact H4 |].
  rewrite Hframe; [reflexivity |].
  unfold reset_fields. rewrite !not_elem_of_cons. repeat split; try discriminate.
  apply not_elem_of_nil.
Defined.

(** C2 as stated fails when the database update fails: no storage object is
    removed and the local profile keeps the four fields. *)
Lemma resetUserData_update_failure_resets_nothing :
  let env := Sample.backend_denies in
  let r := exec env (AuthContext.resetUserData Sample.signed_in) Sample.signed_in_app in
  Provider.user Sample.signed_in = Some Sample.alice
  ∧ omap remove_of (trace r) = []
  ∧ ∃ p, Provider.profile (provider (final r)) = Some p
         ∧ p !! "onboarding_completed" = Some (JBool true)
         ∧ p !! "personality_tiles" = Some Sample.tiles.
Proof.
  cbv zeta. split; [reflexivity |]. split; [by vm_compute |].
  exists Sample.alice_profile. by vm_compute.
Qed.

(** C9. [resetUserData] is ordered.  When the database update fails (by an
    [error] or by rejecting) the call throws that failure with the state
    as it was, before any storage removal, any setter of the provider and
    any navigation.  When the update succeeds the call completes whatever
    the storage removal does, a rejection included: it returns, the local
    profile has the reset fields spread over it, and it navigates to "/"
    once. *)
Theorem resetUserData_ordered (env : Oracle) (cl : Provider.State) (a : App) (u : User) :
  Provider.user cl = Some u →
  let r := exec env (AuthContext.resetUserData cl) a in
  let update := env _ (FromUpdate "profiles" AuthContext.reset_updates "id" (id u)) in
  (∀ e, failure error update = Some e →
     result r = Thrown e
     ∧ final r = a
     ∧ omap remove_of (trace r) = []
     ∧ filter (λ ev, sets_provider ev = true) (trace r) = []
     ∧ omap navigate_of (trace r) = [])
  ∧ (failure error update = None →
     result r = Returned ()
     ∧ omap remove_of (trace r)
       = [("user_files", ["user_data/" +:+ id u +:+ "/personality_report.txt"])]
     ∧ Provider.profile (provider (final r))
       = (λ prev, spread prev AuthContext.reset_updates) <$> Provider.profile (provider a)
     ∧ omap navigate_of (trace r) = ["/"]).
Proof.
  intros Hu. cbv zeta.
  destruct (resetUserData_run env cl a u Hu) as [_ Hrun].
  split.
  - intros e He. rewrite He in Hrun.
    destruct Hrun as (Hres & Hfinal & Hrm & Hnav & Hset). done.
  - intros Hok. rewrite Hok in Hrun.
    destruct Hrun as (Hres & Hrm & Hnav & Hprof & _). done.
Qed.

Lemma resetUserData_ordered_witness :
  Provider.user Sample.signed_in = Some Sample.alice
  ∧ (let r := exec Sample.backend_denies (AuthContext.resetUserData Sample.signed_in)
                Sample.signed_in_app in
     result r = Thrown (SdkExn Sample.denied) ∧ final r = Sample.signed_in_app)
  ∧ (let r := exec Sample.backend_storage_down (AuthContext.resetUserData Sample.signed_in)
                Sample.signed_in_app in
     Sample.backend_storage_down _
       (StorageRemove "user_files" ["user_data/alice/personality_report.txt"])
     = Rejected (Rejection "Failed to fetch")
     ∧ result r = Returned ()
     ∧ omap navigate_of (trace r) = ["/"]).
Proof.
  split; [reflexivity |]. split.
  - destruct (resetUserData_ordered Sample.backend_denies Sample.signed_in
                Sample.signed_in_app Sample.alice eq_refl) as [Hfail _].
    destruct (Hfail _ eq_refl) as (Hres & Hfinal & _).
    split; [exact Hres | exact Hfinal].
  - destruct (resetUserData_ordered Sample.backend_storage_down Sample.signed_in
                Sample.signed_in_app Sample.alice eq_refl) as [_ Hok].
    destruct (Hok eq_refl) as (Hres & _ & _ & Hnav).
    split; [reflexivity |]. split; [exact Hres | exact Hnav].
Defined.

(** What [updateProfile] does for a user, on each outcome of the database
    update. *)
Lemma updateProfile_run (env : Oracle) (cl : Provider.State) (updates : Profile)
    (a : App) (u : User) :
  Provider.user cl = Some u →
  let r := exec env (AuthContext.updateProfile cl updates) a in
  filter (λ ev, is_awaited ev = true) (trace r)
  = [Awaited (FromUpdate "profiles" updates "id" (id u))]
  ∧ match failure error (env _ (FromUpdate "profiles" updates "id" (id u))) with
    | Some e => result r = Thrown e ∧ final r = a
    | None =>
        result r = Returned ()
        ∧ Provider.profile (provider (final r))
          = (λ prev, spread prev updates) <$> Provider.profile (provider a)
    end.
Proof.
  intros Hu. cbv zeta. unfold AuthContext.updateProfile. rewrite Hu; cbn.
  destruct (env _ (FromUpdate _ _ _ _)) as [[[e|]]|e]; cbn; done.
Qed.

(** C5, as the code has it.  Without a user [updateProfile] throws 'User not
    authenticated', sends nothing to the backend and leaves the state as it
    was.  With a user it sends one update of the profiles row whose [id] is
    the user's, with exactly the given updates, and nothing else; when the
    backend reports no error it returns and spreads the updates over the
    local profile, a field named in the updates taking its new value and
    every other field keeping its value; when the update fails it throws
    the failure and leaves the local profile as it was. *)
Theorem updateProfile_guard_and_merge
    (env : Oracle) (cl : Provider.State) (updates : Profile) (a : App) :
  let r := exec env (AuthContext.updateProfile cl updates) a in
  match Provider.user cl with
  | None =>
      result r = Thrown (NewError (JStr "User not authenticated"))
      ∧ filter (λ ev, is_awaited ev = true) (trace r) = []
      ∧ final r = a
  | Some u =>
      let update := FromUpdate "profiles" updates "id" (id u) in
      filter (λ ev, is_awaited ev = true) (trace r) = [Awaited update]
      ∧ match failure error (env _ update) with
        | Some e =>
            result r = Thrown e
            ∧ Provider.profile (provider (final r)) = Provider.profile (provider a)
        | None =>
            result r = Returned ()
            ∧ match Provider.profile (provider a) with
              | Some prev =>
                  ∃ next, Provider.profile (provider (final r)) = Some next
                          ∧ ∀ k, next !! k = match updates !! k with
                                             | Some v => Some v
                                             | None => prev !! k
                                             end
              | None => Provider.profile (provider (final r)) = None
              end
        end
  end.
Proof.
  cbv zeta. destruct (Provider.user cl) as [u|] eqn:Hu.
  - destruct (updateProfile_run env cl updates a u Hu) as [Hcalls Hrun].
    split; [exact Hcalls |].
    destruct (failure _ _) as [e|].
    + destruct Hrun as [-> ->]. done.
    + destruct Hrun as [-> Hprof]. split; [done |].
      rewrite Hprof. destruct (Provider.profile (provider a)) as [prev|]; cbn; [| done].
      eexists. split; [done |]. intros k. apply lookup_spread.
  - unfold AuthContext.updateProfile. rewrite Hu; cbn. done.
Qed.

(** C5 as stated fails when the backend reports an error: the updates are
    not merged into the local profile. *)
Lemma updateProfile_error_not_merged :
  let env := Sample.backend_denies in
  let updates : Profile := {[ "full_name" := JStr "Alice B." ]} in
  let r := exec env (AuthContext.updateProfile Sample.signed_in updates)
             Sample.signed_in_app in
  Provider.user Sample.signed_in = Some Sample.alice
  ∧ omap update_of (trace r) = [("profiles", updates, "id", "alice")]
  ∧ result r = Thrown (SdkExn Sample.denied)
  ∧ ∃ p, Provider.profile (provider (final r)) = Some p
         ∧ p !! "full_name" = Some (JStr "Alice").
Proof.
  cbv zeta. split; [reflexivity |]. split; [by vm_compute |]. split; [by vm_compute |].
  exists Sample.alice_profile. by vm_compute.
Qed.

(** ** The session and the user stay together *)

(** Unfolds a handler along its awaits, by cases on every answer. *)
Ltac safe_step :=
  repeat (cbn;
    match goal with
    | |- _ ∧ _ => split
    | |- ∀ _, _ => intros
    | |- context [match ?o with Resolved _ => _ | Rejected _ => _ end] => destruct o
    | |- context [match ?x with Some _ => _ | None => _ end] => destruct x eqn:?
    | |- context [if ?b then _ else _] => destruct b eqn:?
    end);
  try assumption; try done.

Lemma synced_initial : synced initial_app.
Proof. done. Qed.

(** Setting the session and the user from one SDK session that has a user. *)
Lemma synced_set (a : App) (session : option Session) (user : User) :
  session ≫= session_user = Some user →
  synced (apply (SetUser (Some user)) (apply (SetSession session) a)).
Proof.
  destruct session as [s|]; cbn; [| done].
  intros Hs. unfold synced; cbn. by rewrite Hs.
Qed.

(** Every handler keeps [synced] between its awaits. *)
Lemma safe_handler (t : Task) : handler t → safe_start t.
Proof.
  destruct 1; intros a Ha.
  - unfold AuthContext.onAuthStateChange; cbn.
    destruct (s ≫= session_user) eqn:Hs; cbn; [| done].
    by apply (synced_set a).
  - unfold AuthContext.initializeAuth. safe_step.
    by apply (synced_set a').
  - unfold AuthContext.fetchProfile. safe_step.
  - unfold AuthContext.signInWithGoogle. safe_step.
  - unfold AuthContext.signInWithEmail. safe_step.
  - unfold AuthContext.signUpWithEmail. safe_step.
  - unfold AuthContext.signOut. safe_step.
  - unfold AuthContext.updateProfile. safe_step.
  - unfold AuthContext.getGoogleAuthToken. safe_step.
  - unfold AuthContext.deleteAccount. safe_step.
    match goal with x : Json |- _ => destruct x end; by cbn.
  - unfold AuthContext.resetUserData. safe_step.
  - unfold Auth.handleGoogleSignIn, AuthContext.signInWithGoogle. safe_step.
  - unfold Profile.effect, Profile.fetchPersonalityData. safe_step.
  - unfold Profile.handleLogout, AuthContext.signOut. safe_step.
Qed.

(** Running a safe program to its next await leaves a [synced] state and a
    safe continuation. *)
Lemma safe_run_sync {A : Type} (p : Prog A) (a : App) :
  safe p a →
  synced (run_sync p a).2 ∧ safe_task (task (run_sync p a).1).
Proof.
  revert a. induction p as [x|e|c k IH|X c k _]; intros a Hsafe; cbn in *.
  - done.
  - done.
  - by apply IH.
  - destruct Hsafe as [Ha Hk]. done.
Qed.

Lemma sys_inv_advance {A : Type} (p : Prog A) (s : Sys) (others : list Task) :
  safe p (app s) → Forall safe_task others → sys_inv (advance p s others).
Proof.
  intros Hsafe Hothers. unfold advance, sys_inv.
  destruct (safe_run_sync p (app s) Hsafe) as [Ha Hp].
  destruct (run_sync p (app s)) as [p' a']; cbn in *.
  split; [done |]. destruct p'; try done. by constructor.
Qed.

Lemma sys_inv_step (s s' : Sys) : sys_inv s → step s s' → sys_inv s'.
Proof.
  intros [Ha Hpend] Hstep. destruct Hstep as [A p s Hp | A X c k o s before after Hs].
  - apply sys_inv_advance; [by apply (safe_handler (task p)) | done].
  - rewrite Hs in Hpend. apply Forall_app in Hpend as [Hbefore Hrest].
    apply Forall_cons in Hrest as [Htask Hafter].
    apply sys_inv_advance; [by apply Htask | by apply Forall_app].
Qed.

Lemma sys_inv_reachable (s : Sys) : reachable s → sys_inv s.
Proof.
  induction 1 as [| s s' _ IH Hstep].
  - split; [apply synced_initial | constructor].
  - by apply (sys_inv_step s).
Qed.

(** C4. In every reachable state of the application, handlers interleaved
    at their awaits, the provider's session is null exactly when its user
    is null, and a session it holds has a user, which is the user it holds.
    Every step, whichever handler starts or resumes (the auth listener,
    the initialization, [signOut], [deleteAccount] and the others), leaves
    the two either both null or both set from one SDK session. *)
Theorem session_and_user_synchronized (s : Sys) :
  reachable s →
  let p := provider (app s) in
  (Provider.session p = None ↔ Provider.user p = None)
  ∧ (∀ ses, Provider.session p = Some ses →
       is_Some (session_user ses) ∧ Provider.user p = session_user ses)
  ∧ (∀ s', step s s' →
       let p' := provider (app s') in
       (Provider.session p' = None ∧ Provider.user p' = None)
       ∨ (∃ ses u, Provider.session p' = Some ses ∧ session_user ses = Some u
                   ∧ Provider.user p' = Some u)).
Proof.
  intros Hs. cbv zeta.
  assert (Hsynced : ∀ t, reachable t →
            match Provider.session (provider (app t)) with
            | Some ses => is_Some (session_user ses)
                          ∧ Provider.user (provider (app t)) = session_user ses
            | None => Provider.user (provider (app t)) = None
            end).
  { intros t Ht. by destruct (sys_inv_reachable t Ht) as [Hsync _]. }
  split; [| split].
  - specialize (Hsynced s Hs).
    destruct (Provider.session (provider (app s))) as [ses|].
    + destruct Hsynced as [[u Hu] Huser]. rewrite Huser, Hu. done.
    + done.
  - intros ses Hses. specialize (Hsynced s Hs). by rewrite Hses in Hsynced.
  - intros s' Hstep.
    specialize (Hsynced s' (reachable_step s s' Hs Hstep)).
    destruct (Provider.session (provider (app s'))) as [ses|].
    + destruct Hsynced as [[u Hu] Huser]. right. exists ses, u.
      by rewrite Huser, Hu.
    + by left.
Qed.

Lemma session_and_user_synchronized_witness :
  let s := advance (AuthContext.onAuthStateChange "SIGNED_IN" (Some Sample.alice_session))
             initial_sys (pending initial_sys) in
  reachable s
  ∧ Provider.session (provider (app s)) = Some Sample.alice_session
  ∧ Provider.user (provider (app s)) = Some Sample.alice.
Proof.
  cbv zeta.
  assert (Hreach : reachable
            (advance (AuthContext.onAuthStateChange "SIGNED_IN" (Some Sample.alice_session))
               initial_sys (pending initial_sys))).
  { eapply reachable_step; [apply reachable_initial |].
    apply (step_start (AuthContext.onAuthStateChange "SIGNED_IN" (Some Sample.alice_session))).
    apply h_onAuthStateChange. }
  split; [exact Hreach |]. split; [reflexivity |].
  destruct (session_and_user_synchronized _ Hreach) as (_ & Hset & _).
  destruct (Hset Sample.alice_session eq_refl) as [_ Huser].
  exact Huser.
Defined.

(** * Further properties of the provider *)

(** ** Loading the profile *)

(** X1. [fetchProfile] never throws and asks the backend once, for the row
    of [profiles] whose [id] is the given user id.  When the query answers
    without error the local profile becomes the row it answered; when it
    answers with an error or rejects, the state is left as it was. *)
Theorem fetchProfile_sets_profile_on_success (env : Oracle) (userId : string) (a : App) :
  let r := exec env (AuthContext.fetchProfile userId) a in
  result r = Returned ()
  ∧ filter (λ ev, is_awaited ev = true) (trace r)
    = [Awaited (FromSelectSingle "profiles" "id" userId)]
  ∧ match fetched_row (env _ (FromSelectSingle "profiles" "id" userId)) with
    | Some row =>
        Provider.profile (provider (final r)) = row
        ∧ Provider.session (provider (final r)) = Provider.session (provider a)
        ∧ Provider.user (provider (final r)) = Provider.user (provider a)
        ∧ Provider.loading (provider (final r)) = Provider.loading (provider a)
    | None => final r = a
    end.
Proof.
  unfold AuthContext.fetchProfile; cbn.
  destruct (env _ (FromSelectSingle _ _ _)) as [[row [e|]]|e]; cbn; done.
Qed.

(** ** The auth listener *)

(** X2. The listener of [onAuthStateChange] asks the backend nothing and
    never throws.  On a session that has a user it sets the session and
    that user, keeps the profile it had, and defers one profile fetch for
    the user's id; on anything else (no session, or a session without a
    user) it clears the session, the user and the profile and defers
    nothing.  The loading flag is not touched. *)
Theorem onAuthStateChange_sets_or_clears
    (env : Oracle) (event : string) (session : option Session) (a : App) :
  let r := exec env (AuthContext.onAuthStateChange event session) a in
  let p := provider a in
  let p' := provider (final r) in
  result r = Returned ()
  ∧ filter (λ ev, is_awaited ev = true) (trace r) = []
  ∧ Provider.loading p' = Provider.loading p
  ∧ match session ≫= session_user with
    | Some u =>
        Provider.session p' = session
        ∧ Provider.user p' = Some u
        ∧ Provider.profile p' = Provider.profile p
        ∧ omap timeout_of (trace r) = [FetchProfileTask (id u)]
    | None =>
        Provider.session p' = None
        ∧ Provider.user p' = None
        ∧ Provider.profile p' = None
        ∧ omap timeout_of (trace r) = []
    end.
Proof.
  unfold AuthContext.onAuthStateChange; cbn.
  destruct (session ≫= session_user) as [u|]; cbn; done.
Qed.

(** ** Initialization *)

(** X3. [initializeAuth] never throws and leaves the loading flag false on
    every outcome.  It asks for the current session once.  When the answer
    holds a session with a user, it sets the session and that user and
    queries that user's profile row, and the local profile is the row when
    the query succeeds; in every other case (an error, a rejection, no
    session, a session without user) it asks nothing more and changes
    nothing but the loading flag. *)
Theorem initializeAuth_ends_loading (env : Oracle) (a : App) :
  let r := exec env AuthContext.initializeAuth a in
  let p := provider a in
  let p' := provider (final r) in
  result r = Returned ()
  ∧ Provider.loading p' = false
  ∧ match existing_session (env _ AuthGetSession) with
    | Some (s, u) =>
        filter (λ ev, is_awaited ev = true) (trace r)
        = [Awaited AuthGetSession; Awaited (FromSelectSingle "profiles" "id" (id u))]
        ∧ Provider.session p' = Some s
        ∧ Provider.user p' = Some u
        ∧ Provider.profile p'
          = match fetched_row (env _ (FromSelectSingle "profiles" "id" (id u))) with
            | Some row => row
            | None => Provider.profile p
            end
    | None =>
        filter (λ ev, is_awaited ev = true) (trace r) = [Awaited AuthGetSession]
        ∧ Provider.session p' = Provider.session p
        ∧ Provider.user p' = Provider.user p
        ∧ Provider.profile p' = Provider.profile p
    end.
Proof.
  unfold AuthContext.initializeAuth, AuthContext.fetchProfile; cbn.
  destruct (env _ AuthGetSession) as [[[s|] [e|]]|e]; cbn; try done.
  destruct (session_user s) as [u|]; cbn; [| done].
  destruct (env _ (FromSelectSingle _ _ _)) as [[row [e|]]|e]; cbn; done.
Qed.

(** ** Signing in and up *)

(** X4. The three sign-in functions only talk to the SDK: each makes one
    SDK call with the arguments it was given, throws exactly the failure of
    that call, and leaves the state of the application as it was on every
    outcome, success included. *)
Theorem sign_in_functions_leave_state
    (env : Oracle) (origin email password : string) (metadata : option (option string))
    (a : App) :
  let google := AuthSignInWithOAuth "google" origin "email profile" in
  let by_password := AuthSignInWithPassword email password in
  let sign_up := AuthSignUp email password metadata in
  let outcome (c : AsyncCmd ErrorResponse) : Result unit :=
    match failure error (env _ c) with
    | Some e => Thrown e
    | None => Returned ()
    end in
  let r1 := exec env (AuthContext.signInWithGoogle origin) a in
  let r2 := exec env (AuthContext.signInWithEmail email password) a in
  let r3 := exec env (AuthContext.signUpWithEmail email password metadata) a in
  (final r1 = a ∧ result r1 = outcome google
   ∧ filter (λ ev, is_awaited ev = true) (trace r1) = [Awaited google])
  ∧ (final r2 = a ∧ result r2 = outcome by_password
     ∧ filter (λ ev, is_awaited ev = true) (trace r2) = [Awaited by_password])
  ∧ (final r3 = a ∧ result r3 = outcome sign_up
     ∧ filter (λ ev, is_awaited ev = true) (trace r3) = [Awaited sign_up]).
Proof.
  cbv zeta. repeat apply conj.
  all: unfold AuthContext.signInWithGoogle, AuthContext.signInWithEmail,
         AuthContext.signUpWithEmail; cbn.
  1-3: destruct (env _ (AuthSignInWithOAuth _ _ _)) as [[[e|]]|e]; cbn; done.
  1-3: destruct (env _ (AuthSignInWithPassword _ _)) as [[[e|]]|e]; cbn; done.
  all: destruct (env _ (AuthSignUp _ _ _)) as [[[e|]]|e]; cbn; done.
Qed.

(** ** Account deletion, by outcome *)

(** X5. Without a user or without a session [deleteAccount] sends nothing:
    it throws 'User not authenticated', shows the error toast, does not
    navigate and leaves the state as it was. *)
Theorem deleteAccount_unauthenticated (env : Oracle) (cl : Provider.State) (a : App) :
  Provider.user cl = None ∨ Provider.session cl = None →
  let r := exec env (AuthContext.deleteAccount cl) a in
  result r = Thrown (NewError (JStr "User not authenticated"))
  ∧ filter (λ ev, is_awaited ev = true) (trace r) = []
  ∧ omap toast_of (trace r) = ["Failed to delete account. Please try again."]
  ∧ omap navigate_of (trace r) = []
  ∧ final r = a.
Proof.
  intros Hcl. cbv zeta. unfold AuthContext.deleteAccount.
  destruct (Provider.user cl) as [u|], (Provider.session cl) as [s|];
    cbn; try done.
  by destruct Hcl.
Qed.

Lemma deleteAccount_unauthenticated_witness :
  let r := exec Sample.backend_ok (AuthContext.deleteAccount Provider.initial)
             initial_app in
  result r = Thrown (NewError (JStr "User not authenticated"))
  ∧ filter (λ ev, is_awaited ev = true) (trace r) = []
  ∧ final r = initial_app.
Proof.
  destruct (deleteAccount_unauthenticated Sample.backend_ok Provider.initial initial_app
              (or_introl eq_refl)) as (Hres & Hcalls & _ & _ & Hfinal).
  split; [exact Hres |]. split; [exact Hcalls | exact Hfinal].
Defined.

(** X6. With a user and a session, [deleteAccount] succeeds exactly when
    the function confirms the deletion.  Then it returns, signs out of the
    SDK once, whose outcome it ignores (a rejection and an error alike),
    navigates to "/" and shows the success toast.  Otherwise it throws,
    shows the error toast only, and neither signs out, nor navigates, nor
    changes the state. *)
Theorem deleteAccount_outcomes
    (env : Oracle) (cl : Provider.State) (a : App) (u : User) (s : Session) :
  Provider.user cl = Some u →
  Provider.session cl = Some s →
  let r := exec env (AuthContext.deleteAccount cl) a in
  if deletion_confirmed env (access_token s) (id u)
  then
    result r = Returned ()
    ∧ filter (λ ev, is_sign_out ev = true) (trace r) = [Awaited AuthSignOut]
    ∧ omap navigate_of (trace r) = ["/"]
    ∧ omap toast_of (trace r) = ["Your account has been successfully deleted"]
  else
    throws r
    ∧ filter (λ ev, is_sign_out ev = true) (trace r) = []
    ∧ omap navigate_of (trace r) = []
    ∧ omap toast_of (trace r) = ["Failed to delete account. Please try again."]
    ∧ final r = a.
Proof.
  intros Hu Hs. cbv zeta. unfold deletion_confirmed, throws.
  unfold AuthContext.deleteAccount. rewrite Hu, Hs; cbn.
  destruct (env _ (Fetch _ _)) as [response|e]; cbn; [| by eauto 10].
  destruct (env _ (ResponseJson response)) as [parsed|e]; cbn; [| by eauto 10].
  destruct (ok response); cbn.
  - destruct (env _ AuthSignOut) as [?|e]; cbn; done.
  - destruct parsed; cbn; by eauto 10.
Qed.

Lemma deleteAccount_outcomes_witness :
  (let r := exec Sample.backend_ok (AuthContext.deleteAccount Sample.signed_in)
              Sample.signed_in_app in
   result r = Returned ()
   ∧ omap toast_of (trace r) = ["Your account has been successfully deleted"])
  ∧ (let r := exec Sample.backend_denies (AuthContext.deleteAccount Sample.signed_in)
                Sample.signed_in_app in
     throws r ∧ final r = Sample.signed_in_app).
Proof.
  split.
  - pose proof (deleteAccount_outcomes Sample.backend_ok Sample.signed_in
                  Sample.signed_in_app Sample.alice Sample.alice_session eq_refl eq_refl)
      as H.
    destruct H as (Hres & _ & _ & Htoast). split; [exact Hres | exact Htoast].
  - pose proof (deleteAccount_outcomes Sample.backend_denies Sample.signed_in
                  Sample.signed_in_app Sample.alice Sample.alice_session eq_refl eq_refl)
      as H.
    destruct H as (Hthrows & _ & _ & _ & Hfinal). split; [exact Hthrows | exact Hfinal].
Defined.

(** X7. When the function answers with a response that is not ok,
    [deleteAccount] throws an [Error] built from the parsed body: from its
    [error] property when the body has a truthy one, and from 'Failed to
    delete account' when the property is missing or falsy or the body is
    not an object; on the body [null] reading the property is itself a
    TypeError, and that is what is thrown. *)
Theorem deleteAccount_refusal_message
    (env : Oracle) (cl : Provider.State) (a : App) (u : User) (s : Session)
    (response : Response) (parsed : Json) :
  Provider.user cl = Some u →
  Provider.session cl = Some s →
  env _ (Fetch AuthContext.delete_user_url
           (AuthContext.delete_user_init (access_token s) (id u))) = Resolved response →
  env _ (ResponseJson response) = Resolved parsed →
  ok response = false →
  result (exec env (AuthContext.deleteAccount cl) a)
  = match parsed with
    | JNull => Thrown TypeError
    | JObj fields =>
        match assoc "error" fields with
        | Some reason =>
            if truthy reason then Thrown (NewError reason)
            else Thrown (NewError (JStr "Failed to delete account"))
        | None => Thrown (NewError (JStr "Failed to delete account"))
        end
    | _ => Thrown (NewError (JStr "Failed to delete account"))
    end.
Proof.
  intros Hu Hs Hfetch Hjson Hok.
  unfold AuthContext.deleteAccount. rewrite Hu, Hs; cbn.
  rewrite Hfetch; cbn. rewrite Hjson; cbn. rewrite Hok; cbn.
  destruct parsed as [| | | | |fields]; cbn; try done.
  destruct (assoc "error" fields) as [reason|]; cbn; [| done].
  destruct (truthy reason); done.
Qed.

Lemma deleteAccount_refusal_message_witness :
  result (exec Sample.backend_denies (AuthContext.deleteAccount Sample.signed_in)
            Sample.signed_in_app)
  = Thrown (NewError (JStr "Unauthorized")).
Proof.
  exact (deleteAccount_refusal_message Sample.backend_denies Sample.signed_in
           Sample.signed_in_app Sample.alice Sample.alice_session
           {| ok := false; response_handle := "r2" |}
           (JObj [("error", JStr "Unauthorized")])
           eq_refl eq_refl eq_refl eq_refl eq_refl).
Defined.

(** ** Guards *)

(** X8. Without a user [resetUserData] throws 'User not authenticated'
    before anything else: nothing is sent to the database or to storage,
    nothing is navigated to and the state is left as it was. *)
Theorem resetUserData_unauthenticated (env : Oracle) (cl : Provider.State) (a : App) :
  Provider.user cl = None →
  let r := exec env (AuthContext.resetUserData cl) a in
  result r = Thrown (NewError (JStr "User not authenticated"))
  ∧ filter (λ ev, is_awaited ev = true) (trace r) = []
  ∧ omap navigate_of (trace r) = []
  ∧ final r = a.
Proof.
  intros Hu. cbv zeta. unfold AuthContext.resetUserData. rewrite Hu; cbn. done.
Qed.

Lemma resetUserData_unauthenticated_witness :
  let r := exec Sample.backend_ok (AuthContext.resetUserData Provider.initial)
             initial_app in
  result r = Thrown (NewError (JStr "User not authenticated")) ∧ final r = initial_app.
Proof.
  destruct (resetUserData_unauthenticated Sample.backend_ok Provider.initial initial_app
              eq_refl) as (Hres & _ & _ & Hfinal).
  split; [exact Hres | exact Hfinal].
Defined.

(** X9. [getGoogleAuthToken] asks the SDK for the session only when the
    provider holds one: without a session it returns null with no call at
    all, and with one it makes exactly one [getSession] call and no other.
    The token it returns comes from the answer of that call, never from
    the session the provider holds. *)
Theorem getGoogleAuthToken_calls (env : Oracle) (cl : Provider.State) (a : App) :
  let r := exec env (AuthContext.getGoogleAuthToken cl) a in
  filter (λ ev, is_awaited ev = true) (trace r)
  = (if present (Provider.session cl) then [Awaited AuthGetSession] else [])
  ∧ (∀ cl', present (Provider.session cl') = present (Provider.session cl) →
       result (exec env (AuthContext.getGoogleAuthToken cl') a) = result r).
Proof.
  cbv zeta. unfold AuthContext.getGoogleAuthToken. split.
  - destruct (Provider.session cl) as [s0|]; cbn; [| done].
    destruct (env _ AuthGetSession) as [[[s|] [e|]]|e]; cbn; try done;
      destruct (truthy_str _); done.
  - intros cl' Hcl'.
    destruct (Provider.session cl) as [s0|], (Provider.session cl') as [s1|];
      cbn in *; done.
Qed.

(** * Further properties of the pages *)

(** ** Logging out *)

(** X10. The logout handler never throws, and it logs the user out locally
    whatever the SDK answers: the session, the user and the profile are
    null afterwards and the application has navigated to "/".  It shows
    exactly one toast, the success toast when the SDK sign-out succeeded
    and the error toast when it failed. *)
Theorem handleLogout_logs_out_locally (env : Oracle) (cl : Provider.State) (a : App) :
  let r := exec env (Profile.handleLogout cl) a in
  result r = Returned ()
  ∧ Provider.session (provider (final r)) = None
  ∧ Provider.user (provider (final r)) = None
  ∧ Provider.profile (provider (final r)) = None
  ∧ omap navigate_of (trace r) = ["/"]
  ∧ omap toast_of (trace r)
    = match failure error (env _ AuthSignOut) with
      | None => ["Logged out successfully"]
      | Some _ => ["Failed to log out. Please try again."]
      end.
Proof.
  unfold Profile.handleLogout, AuthContext.signOut; cbn.
  destruct (env _ AuthSignOut) as [[[e|]]|e]; cbn; done.
Qed.


(** ** Rendering the tiles *)

Lemma cards_fixed_shape (fields : list (string * Json)) (l : list (string * string)) :
  Profile.cards (JObj fields) l
  = if forallb (λ kt, present (array_at fields kt.1)) l
    then Returned (card_of fields <$> l)
    else Thrown TypeError.
Proof.
  induction l as [|[key title] l IH]; [done |].
  cbn [Profile.cards forallb fmap list_fmap]. rewrite IH.
  unfold Profile.card, card_of, array_at; cbn.
  destruct (assoc key fields) as [[| | | |items|]|]; cbn; try done.
  by destruct (forallb _ l).
Qed.

(** The six cards of any value: those of its fields when it is of the
    fixed shape, a TypeError otherwise. *)
Lemma cards_sections (tiles : Json) :
  Profile.cards tiles Profile.sections
  = if fixed_shape tiles
    then Returned (card_of (match tiles with JObj fields => fields | _ => [] end)
                     <$> Profile.sections)
    else Thrown TypeError.
Proof.
  destruct tiles as [| | | | |fields]; try done.
  apply cards_fixed_shape.
Qed.

(** X11. Once loaded, the page renders truthy tiles of the fixed shape (an
    object with an array under each of the six list keys) as six cards, in
    the order and under the titles of the page, each with the items of its
    list as badges and the value under its reason key, a missing reason
    included. *)
Theorem render_fixed_shape (s : ProfileView.State) (tiles : Json) :
  ProfileView.loading s = false →
  ProfileView.personalityTiles s = Some tiles →
  fixed_shape tiles = true →
  ∃ fields cs,
    tiles = JObj fields
    ∧ Profile.render s = Returned (Profile.Page (Some cs) (shown_report s))
    ∧ cs = card_of fields <$> Profile.sections
    ∧ Profile.title <$> cs
      = ["Lifestyle Vibes"; "Food & Drink Favorites"; "Go-to Activities";
         "Favorite Places"; "Travel & Exploration"; "Other Interests"].
Proof.
  intros Hload Htiles Hshape. unfold Profile.render. rewrite Hload, Htiles.
  destruct tiles as [| | | | |fields]; try done. cbn [truthy].
  exists fields, (card_of fields <$> Profile.sections).
  rewrite cards_sections, Hshape. done.
Qed.

Lemma render_fixed_shape_witness :
  let s := {| ProfileView.personalityReport := Some "You like ramen.";
              ProfileView.personalityTiles := Some Sample.tiles;
              ProfileView.loading := false |} in
  fixed_shape Sample.tiles = true
  ∧ ∃ cs, Profile.render s = Returned (Profile.Page (Some cs) (Some "You like ramen."))
          ∧ length cs = 6.
Proof.
  cbv zeta. split; [reflexivity |].
  destruct (render_fixed_shape
              {| ProfileView.personalityReport := Some "You like ramen.";
                 ProfileView.personalityTiles := Some Sample.tiles;
                 ProfileView.loading := false |}
              Sample.tiles eq_refl eq_refl eq_refl)
    as (fields & cs & _ & Hrender & Hcs & _).
  exists cs. split; [exact Hrender |]. rewrite Hcs. reflexivity.
Defined.

(** X12. The render of the profile page throws in one case only: the page
    is loaded and holds truthy tiles that are not of the fixed shape (not
    an object, a list key missing, or a list that is not an array).  What
    it throws then is a TypeError.  While loading, and on null or falsy
    tiles, it always returns. *)
Theorem render_throws_iff (s : ProfileView.State) :
  ((∃ e, Profile.render s = Thrown e) ↔
   ProfileView.loading s = false
   ∧ ∃ tiles, ProfileView.personalityTiles s = Some tiles
              ∧ truthy tiles = true ∧ fixed_shape tiles = false)
  ∧ (∀ e, Profile.render s = Thrown e → e = TypeError).
Proof.
  unfold Profile.render.
  destruct (ProfileView.loading s).
  { split; [split |]; [by intros [? [=]] | by intros [[=] _] | by intros ? [=]]. }
  destruct (ProfileView.personalityTiles s) as [tiles|].
  2: { split; [split |]; [by intros [? [=]] | by intros (_ & ? & [=] & _) | by intros ? [=]]. }
  destruct (truthy tiles) eqn:Htruthy.
  2: { split; [split |]; [by intros [? [=]] | | by intros ? [=]].
       intros (_ & t & [= <-] & Ht & _). congruence. }
  rewrite cards_sections.
  destruct (fixed_shape tiles) eqn:Hshape.
  - split; [split |]; [by intros [? [=]] | | by intros ? [=]].
    intros (_ & t & [= <-] & _ & Hno). congruence.
  - split; [split |]; [| by eauto | by intros ? [= <-]].
    intros _. split; [done |]. by exists tiles.
Qed.

(** * Further properties of the running application *)

Lemma start_reachable {A : Type} (p : Prog A) (s : Sys) :
  handler (task p) → reachable s → reachable (start p s).
Proof.
  intros Hp Hs. apply (reachable_step s); [done |]. by apply step_start.
Qed.

Lemma resume_reachable (env : Oracle) (i : nat) (s : Sys) :
  reachable s → reachable (resume env i s).
Proof.
  intros Hs. unfold resume.
  destruct (pending s !! i) as [[A p]|] eqn:Hi; [| done].
  destruct p as [| | |X c k]; try done.
  apply (reachable_step s); [done |].
  rewrite delete_take_drop.
  apply (step_settle c k (env _ c) s (take i (pending s)) (drop (S i) (pending s))).
  by rewrite take_drop_middle.
Qed.

(** ** A late profile *)

(** X13. The provider does not tie the profile to the user.  A profile
    fetch deferred by the listener can be parked at its query while
    [signOut] runs to its end; resumed afterwards, it stores the row.  So
    a state with no handler in flight is reachable in which the session and
    the user are null and the profile is not. *)
Theorem profile_may_outlive_user :
  ∃ s, reachable s
       ∧ pending s = []
       ∧ Provider.session (provider (app s)) = None
       ∧ Provider.user (provider (app s)) = None
       ∧ Provider.profile (provider (app s)) = Some Sample.alice_profile.
Proof.
  exists (resume Sample.backend_ok 0
            (resume Sample.backend_ok 0
               (start (AuthContext.signOut Sample.signed_in)
                  (start (AuthContext.fetchProfile "alice")
                     (start (AuthContext.onAuthStateChange "SIGNED_IN"
                               (Some Sample.alice_session))
                        initial_sys))))).
  split.
  - do 2 apply resume_reachable.
    apply start_reachable; [constructor |].
    apply start_reachable; [constructor |].
    apply start_reachable; [constructor |].
    constructor.
  - by vm_compute.
Qed.

(** ** The loading flag of the provider *)

Ltac quiet_step :=
  repeat (cbn;
    match goal with
    | |- _ ∧ _ => split
    | |- ∀ _, _ => intros
    | |- not_loading _ => discriminate
    | |- context [match ?o with Resolved _ => _ | Rejected _ => _ end] => destruct o
    | |- context [match ?x with Some _ => _ | None => _ end] => destruct x eqn:?
    | |- context [if ?b then _ else _] => destruct b eqn:?
    end);
  try done.

(** No handler ever calls [setLoading(true)]. *)
Lemma quiet_handler (t : Task) : handler t → quiet_task t.
Proof.
  destruct 1; unfold quiet_task.
  - unfold AuthContext.onAuthStateChange. quiet_step.
  - unfold AuthContext.initializeAuth, AuthContext.fetchProfile. quiet_step.
  - unfold AuthContext.fetchProfile. quiet_step.
  - unfold AuthContext.signInWithGoogle. quiet_step.
  - unfold AuthContext.signInWithEmail. quiet_step.
  - unfold AuthContext.signUpWithEmail. quiet_step.
  - unfold AuthContext.signOut. quiet_step.
  - unfold AuthContext.updateProfile. quiet_step.
  - unfold AuthContext.getGoogleAuthToken. quiet_step.
  - unfold AuthContext.deleteAccount. quiet_step.
    match goal with x : Json |- _ => destruct x end; quiet_step.
  - unfold AuthContext.resetUserData. quiet_step.
  - unfold Auth.handleGoogleSignIn, AuthContext.signInWithGoogle. quiet_step.
  - unfold Profile.effect, Profile.fetchPersonalityData. quiet_step.
  - unfold Profile.handleLogout, AuthContext.signOut. quiet_step.
Qed.

Lemma apply_not_loading (c : SyncCmd) (a : App) :
  not_loading c →
  Provider.loading (provider a) = false →
  Provider.loading (provider (apply c a)) = false.
Proof.
  intros Hc Ha. destruct c as [| | | |b| | | | | | | | |]; try done.
  destruct b; [by destruct Hc | done].
Qed.

Lemma run_sync_quiet {A : Type} (p : Prog A) (a : App) :
  issues_only not_loading p →
  Provider.loading (provider a) = false →
  Provider.loading (provider (run_sync p a).2) = false
  ∧ quiet_task (task (run_sync p a).1).
Proof.
  revert a. induction p as [x|e|c k IH|X c k _]; intros a Hp Ha; cbn in *; try done.
  destruct Hp as [Hc Hk]. apply IH; [done |]. by apply apply_not_loading.
Qed.

Lemma advance_quiet {A : Type} (p : Prog A) (s : Sys) (others : list Task) :
  issues_only not_loading p →
  Forall quiet_task others →
  Forall quiet_task (pending (advance p s others))
  ∧ (Provider.loading (provider (app s)) = false →
     Provider.loading (provider (app (advance p s others))) = false).
Proof.
  intros Hp Hothers. unfold advance.
  pose proof (run_sync_quiet p (app s) Hp) as Hrun.
  assert (Hq : quiet_task (task (run_sync p (app s)).1)).
  { clear Hrun. revert s. induction p as [x|e|c k IH|X c k _]; intros s; cbn in *;
      try done.
    destruct Hp as [_ Hk].
    apply (IH Hk {| app := apply c (app s); pending := pending s |}). }
  destruct (run_sync p (app s)) as [p' a']; cbn in *. split.
  - destruct p'; try done. by constructor.
  - intros Ha. by apply Hrun.
Qed.

Lemma step_quiet (s s' : Sys) :
  Forall quiet_task (pending s) → step s s' →
  Forall quiet_task (pending s')
  ∧ (Provider.loading (provider (app s)) = false →
     Provider.loading (provider (app s')) = false).
Proof.
  intros Hpend Hstep.
  destruct Hstep as [A p s Hp | A X c k o s before after Hs].
  - apply advance_quiet; [by apply (quiet_handler (task p)) | done].
  - rewrite Hs in Hpend. apply Forall_app in Hpend as [Hbefore Hrest].
    apply Forall_cons in Hrest as [Htask Hafter].
    apply advance_quiet; [by apply Htask | by apply Forall_app].
Qed.

Lemma reachable_quiet (s : Sys) : reachable s → Forall quiet_task (pending s).
Proof.
  induction 1 as [| s s' _ IH Hstep]; [constructor |].
  by apply (step_quiet s s').
Qed.

(** X14. The loading flag of the provider never comes back: in every
    reachable state in which it is false, it is false after every step,
    whichever handler starts or resumes. *)
Theorem provider_loading_stays_false (s s' : Sys) :
  reachable s →
  step s s' →
  Provider.loading (provider (app s)) = false →
  Provider.loading (provider (app s')) = false.
Proof.
  intros Hs Hstep. by apply (step_quiet s s'); [apply reachable_quiet |].
Qed.

Lemma provider_loading_stays_false_witness :
  let s := resume Sample.backend_ok 0
             (resume Sample.backend_ok 0 (start AuthContext.initializeAuth initial_sys)) in
  let s' := start (AuthContext.signOut Sample.signed_in) s in
  Provider.loading (provider (app initial_sys)) = true
  ∧ Provider.loading (provider (app s)) = false
  ∧ Provider.loading (provider (app s')) = false.
Proof.
  cbv zeta. split; [reflexivity |]. split; [reflexivity |].
  apply (provider_loading_stays_false
           (resume Sample.backend_ok 0
              (resume Sample.backend_ok 0 (start AuthContext.initializeAuth initial_sys)))).
  - do 2 apply resume_reachable. apply start_reachable; constructor.
  - apply (step_start (AuthContext.signOut Sample.signed_in)). constructor.
  - reflexivity.
Defined.

(** * Further properties of profile updates *)

Lemma spread_spread (prev u1 u2 : Profile) :
  spread (spread prev u1) u2 = spread prev (spread u1 u2).
Proof. unfold spread. by rewrite (assoc_L (∪)). Qed.

Lemma spread_idemp (prev updates : Profile) :
  spread (spread prev updates) updates = spread prev updates.
Proof. unfold spread. by rewrite (assoc_L (∪)), (idemp_L (∪)). Qed.

Lemma provider_ext (p q : Provider.State) :
  Provider.session p = Provider.session q →
  Provider.user p = Provider.user q →
  Provider.profile p = Provider.profile q →
  Provider.loading p = Provider.loading q →
  p = q.
Proof. destruct p, q; cbn; by intros -> -> -> ->. Qed.

(** X15. Two successful calls of [updateProfile] compose: the local
    profile after the second is the profile before the first with the
    first updates spread over it and the second over those, so a field
    named by both has the value of the second call, a field named by one
    the value it gave, and every other field its old value. *)
Theorem updateProfile_composes
    (env1 env2 : Oracle) (cl : Provider.State) (u1 u2 prev : Profile) (a : App) (u : User) :
  Provider.user cl = Some u →
  failure error (env1 _ (FromUpdate "profiles" u1 "id" (id u))) = None →
  failure error (env2 _ (FromUpdate "profiles" u2 "id" (id u))) = None →
  Provider.profile (provider a) = Some prev →
  let r1 := exec env1 (AuthContext.updateProfile cl u1) a in
  let r2 := exec env2 (AuthContext.updateProfile cl u2) (final r1) in
  Provider.profile (provider (final r2)) = Some (spread prev (spread u1 u2))
  ∧ ∀ k, spread prev (spread u1 u2) !! k
         = match u2 !! k with
           | Some v => Some v
           | None =>
               match u1 !! k with
               | Some v => Some v
               | None => prev !! k
               end
           end.
Proof.
  intros Hu H1 H2 Hprev. cbv zeta.
  destruct (updateProfile_run env1 cl u1 a u Hu) as [_ Hr1]. rewrite H1 in Hr1.
  destruct Hr1 as [_ Hp1]. rewrite Hprev in Hp1; cbn in Hp1.
  destruct (updateProfile_run env2 cl u2
              (final (exec env1 (AuthContext.updateProfile cl u1) a)) u Hu) as [_ Hr2].
  rewrite H2 in Hr2. destruct Hr2 as [_ Hp2]. rewrite Hp1 in Hp2; cbn in Hp2.
  split.
  - by rewrite Hp2, spread_spread.
  - intros k. rewrite !lookup_spread. by destruct (u2 !! k), (u1 !! k).
Qed.

Lemma updateProfile_composes_witness :
  let name1 : Profile := {[ "full_name" := JStr "Al" ]} in
  let name2 : Profile := {[ "full_name" := JStr "Alice B." ]} in
  let r1 := exec Sample.backend_ok (AuthContext.updateProfile Sample.signed_in name1)
              Sample.signed_in_app in
  let r2 := exec Sample.backend_ok (AuthContext.updateProfile Sample.signed_in name2)
              (final r1) in
  ∃ next, Provider.profile (provider (final r2)) = Some next
          ∧ next !! "full_name" = Some (JStr "Alice B.")
          ∧ next !! "id" = Some (JStr "alice").
Proof.
  cbv zeta.
  destruct (updateProfile_composes Sample.backend_ok Sample.backend_ok Sample.signed_in
              {[ "full_name" := JStr "Al" ]} {[ "full_name" := JStr "Alice B." ]}
              Sample.alice_profile Sample.signed_in_app Sample.alice
              eq_refl eq_refl eq_refl eq_refl) as [Hnext Hlookup].
  eexists. split; [exact Hnext |]. split; rewrite Hlookup; reflexivity.
Defined.

(** X16. [resetUserData] is idempotent on the local profile: a second
    successful call leaves the profile the first one left. *)
Theorem resetUserData_idempotent
    (env1 env2 : Oracle) (cl : Provider.State) (a : App) (u : User) :
  Provider.user cl = Some u →
  failure error (env1 _ (FromUpdate "profiles" AuthContext.reset_updates "id" (id u))) = None →
  failure error (env2 _ (FromUpdate "profiles" AuthContext.reset_updates "id" (id u))) = None →
  let r1 := exec env1 (AuthContext.resetUserData cl) a in
  let r2 := exec env2 (AuthContext.resetUserData cl) (final r1) in
  provider (final r2) = provider (final r1).
Proof.
  intros Hu H1 H2. cbv zeta.
  destruct (resetUserData_run env2 cl
              (final (exec env1 (AuthContext.resetUserData cl) a)) u Hu) as [_ Hr2].
  rewrite H2 in Hr2. destruct Hr2 as (_ & _ & _ & Hp2 & Hs2 & Hu2 & Hl2).
  destruct (resetUserData_run env1 cl a u Hu) as [_ Hr1].
  rewrite H1 in Hr1. destruct Hr1 as (_ & _ & _ & Hp1 & _).
  rewrite Hp1 in Hp2.
  assert (Hp : Provider.profile (provider (final (exec env2 (AuthContext.resetUserData cl)
                 (final (exec env1 (AuthContext.resetUserData cl) a)))))
               = Provider.profile (provider (final (exec env1 (AuthContext.resetUserData cl) a)))).
  { rewrite Hp2, Hp1. destruct (Provider.profile (provider a)) as [prev|]; cbn; [| done].
    by rewrite spread_idemp. }
  by apply provider_ext.
Qed.

Lemma resetUserData_idempotent_witness :
  let r1 := exec Sample.backend_ok (AuthContext.resetUserData Sample.signed_in)
              Sample.signed_in_app in
  let r2 := exec Sample.backend_storage_down (AuthContext.resetUserData Sample.signed_in)
              (final r1) in
  provider (final r2) = provider (final r1).
Proof.
  exact (resetUserData_idempotent Sample.backend_ok Sample.backend_storage_down
           Sample.signed_in Sample.signed_in_app Sample.alice eq_refl eq_refl eq_refl).
Defined.
